(** * Brand mention checker: the submission workflow of [src/App.tsx]

    A shallow embedding of the [App] component: the values a parsed JSON
    response can hold, the component state with its setters, the
    [handleSubmit] and [downloadCSV] handlers as computations in a small
    state-and-completion monad, and the properties of the workflow. *)

From Stdlib Require Import ZArith List String Ascii Bool Lia.
From Stdlib Require Import DecimalString DecimalPos DecimalZ.
Import ListNotations.

Set Warnings "-register-all".
Open Scope string_scope.

(** ** JavaScript values *)

(** What [response.json()] can resolve to, plus [undefined], which a
    property read yields for a missing member.  [JNum n] is the Number of
    integral value [n]; the model covers the safe integers, |n| at most
    2^53 - 1, which a Number holds exactly and whose
    [Number.prototype.toString] is the exact decimal numeral.  Strings are
    sequences of code units below 256.  The members of an object are kept
    in the order of the JSON text. *)
Inductive JSValue : Type :=
| JUndefined
| JNull
| JBool (b : bool)
| JNum (n : Z)
| JStr (s : string)
| JArr (items : list JSValue)
| JObj (members : list (string * JSValue)).

(** Exceptions the handlers can meet. *)
Inductive Exn : Type :=
| NetworkError   (* fetch rejected *)
| SyntaxError    (* response.json() rejected: the body is not JSON *)
| TypeError.     (* property read on null/undefined, call of a non-function *)

(** ToBoolean, as used by [if (x)], [!x], [x || y] and [x ? a : b]. *)
Definition truthy (v : JSValue) : bool :=
  match v with
  | JUndefined | JNull => false
  | JBool b => b
  | JNum n => negb (n =? 0)%Z
  | JStr s => negb (String.eqb s EmptyString)
  | JArr _ | JObj _ => true
  end.

(** [a || b] on values. *)
Definition js_or (a b : JSValue) : JSValue := if truthy a then a else b.

(** [v === s] for a string literal [s]. *)
Definition strict_eq_str (v : JSValue) (s : string) : bool :=
  match v with
  | JStr t => String.eqb t s
  | _ => false
  end.

(** Own property of a parsed object: [JSON.parse] keeps the last of
    duplicate members. *)
Fixpoint own_property (k : string) (members : list (string * JSValue)) : option JSValue :=
  match members with
  | [] => None
  | (k', v) :: rest =>
      match own_property k rest with
      | Some w => Some w
      | None => if String.eqb k' k then Some v else None
      end
  end.

(** [v.k] for a data member name [k] that no built-in prototype defines
    (the handlers read error, prompt, brand, mentioned, position, raw).
    [None] is the TypeError of reading a property of null or undefined. *)
Definition get_member (v : JSValue) (k : string) : option JSValue :=
  match v with
  | JUndefined | JNull => None
  | JObj members =>
      match own_property k members with
      | Some w => Some w
      | None => Some JUndefined
      end
  | JBool _ | JNum _ | JStr _ | JArr _ => Some JUndefined
  end.

(** ** Strings *)

Definition LF : ascii := "010"%char.
Definition DQUOTE : ascii := "034"%char.

(** White space and line terminators among the code units below 256. *)
Definition is_white_space (c : ascii) : bool :=
  let n := nat_of_ascii c in
  ((9 <=? n) && (n <=? 13) || (n =? 32) || (n =? 160))%nat.

Fixpoint trimStart (s : string) : string :=
  match s with
  | EmptyString => EmptyString
  | String c rest => if is_white_space c then trimStart rest else s
  end.

Fixpoint trimEnd (s : string) : string :=
  match s with
  | EmptyString => EmptyString
  | String c rest =>
      match trimEnd rest with
      | EmptyString => if is_white_space c then EmptyString else String c EmptyString
      | r => String c r
      end
  end.

(** [s.trim()] *)
Definition trim (s : string) : string := trimEnd (trimStart s).

(** The global replace of [downloadCSV], which doubles every double
    quote of [s]. *)
Fixpoint replace_quotes (s : string) : string :=
  match s with
  | EmptyString => EmptyString
  | String c rest =>
      if Ascii.eqb c DQUOTE
      then String DQUOTE (String DQUOTE (replace_quotes rest))
      else String c (replace_quotes rest)
  end.

(** [parts.join(sep)] on an array of strings. *)
Fixpoint join (sep : string) (parts : list string) : string :=
  match parts with
  | [] => EmptyString
  | [p] => p
  | p :: rest => p ++ sep ++ join sep rest
  end.

(** [Number.MAX_SAFE_INTEGER] and the integers a Number holds exactly.
    Past them [toString] prints the shortest digits that read back to
    the same Number, padded with zeros, which this model does not cover. *)
Definition MAX_SAFE_INTEGER : Z := (2 ^ 53 - 1)%Z.

Definition safe_integer (n : Z) : Prop :=
  (- MAX_SAFE_INTEGER <= n <= MAX_SAFE_INTEGER)%Z.

(** [n.toString()] for a safe integer [n]. *)
Definition Number_toString (n : Z) : string := NilZero.string_of_int (Z.to_int n).

Definition has_own (k : string) (members : list (string * JSValue)) : bool :=
  match own_property k members with
  | Some _ => true
  | None => false
  end.

(** The ToString conversion.  An array is its elements joined by commas,
    null and undefined elements giving the empty string; a parsed object
    prints through [Object.prototype.toString] unless it has an own
    (hence not callable) member named toString, which is a TypeError,
    [None] here. *)
Fixpoint ToString (v : JSValue) : option string :=
  match v with
  | JUndefined => Some "undefined"
  | JNull => Some "null"
  | JBool b => Some (if b then "true" else "false")
  | JNum n => Some (Number_toString n)
  | JStr s => Some s
  | JArr items =>
      (fix join_items (l : list JSValue) : option string :=
         match l with
         | [] => Some EmptyString
         | x :: rest =>
             let first :=
               match x with
               | JUndefined | JNull => Some EmptyString
               | _ => ToString x
               end in
             match rest with
             | [] => first
             | _ :: _ =>
                 match first, join_items rest with
                 | Some a, Some b => Some (a ++ "," ++ b)
                 | _, _ => None
                 end
             end
         end) items
  | JObj members =>
      if has_own "toString" members then None else Some "[object Object]"
  end.

(** [v.toString()]: a TypeError on null and undefined. *)
Definition call_toString (v : JSValue) : option string :=
  match v with
  | JUndefined | JNull => None
  | _ => ToString v
  end.

(** The same replace as a method call on a value: only a string has a
    callable [replace]; an own member of that name in a parsed object is
    data, not a function. *)
Definition call_replace_quotes (v : JSValue) : option string :=
  match v with
  | JStr s => Some (replace_quotes s)
  | _ => None
  end.

(** ** The component state and its surroundings *)

(** [interface Result].  At run time the members hold whatever the
    response body held, so they are values, not the declared types. *)
Module Result.
Record t : Type := mk {
  prompt : JSValue;
  brand : JSValue;
  mentioned : JSValue;
  position : JSValue;
  raw : JSValue;
  error : JSValue
}.
End Result.

(** The request [handleSubmit] hands to [fetch]; the body is the object
    given to [JSON.stringify]. *)
Record Request : Type := mkRequest {
  url : string;
  method : string;
  content_type : string;
  body_prompt : string;
  body_brand : string
}.

(** A resolved [fetch]: the status line and what [response.json()] makes
    of the body, [None] when the body is not JSON. *)
Record Response : Type := mkResponse {
  status : Z;
  json_body : option JSValue
}.

Inductive FetchOutcome : Type :=
| FetchRejected
| FetchResolved (response : Response).

(** The file a click on the generated link saves. *)
Record Download : Type := mkDownload {
  filename : string;
  mime : string;
  content : string
}.

(** The five [useState] cells of [App], then what the handlers did to the
    world: requests issued, alerts shown, files offered, console lines.
    [error] is null when the banner is cleared. *)
Record State : Type := mkState {
  prompt : string;
  brand : string;
  results : list Result.t;
  loading : bool;
  error : JSValue;
  fetched : list Request;
  alerts : list string;
  downloads : list Download;
  console : list Exn
}.

Definition initial : State :=
  mkState EmptyString EmptyString [] false JNull [] [] [] [].

(** ** Completions and the handler monad *)

(** How a statement list ends: it runs through, it hits [return], or it
    throws. *)
Inductive Completion (A : Type) : Type :=
| Normal (a : A)
| Return
| Throw (e : Exn).

Arguments Normal {A} a.
Arguments Return {A}.
Arguments Throw {A} e.

Definition M (A : Type) : Type := State -> Completion A * State.

Definition ret {A : Type} (a : A) : M A := fun st => (Normal a, st).

Definition bind {A B : Type} (m : M A) (k : A -> M B) : M B :=
  fun st =>
    match m st with
    | (Normal a, st') => k a st'
    | (Return, st') => (Return, st')
    | (Throw e, st') => (Throw e, st')
    end.

Declare Scope handler_scope.
Delimit Scope handler_scope with handler.
Bind Scope handler_scope with M.

Notation "x <- m ;; k" := (bind m (fun x => k))
  (at level 61, m at next level, right associativity) : handler_scope.
Notation "m ;; k" := (bind m (fun _ => k))
  (at level 61, right associativity) : handler_scope.

Open Scope handler_scope.

Definition return_ {A : Type} : M A := fun st => (Return, st).

Definition throw {A : Type} (e : Exn) : M A := fun st => (Throw e, st).

Definition get_state : M State := fun st => (Normal st, st).

(** A method call or property read that may raise a TypeError. *)
Definition or_TypeError {A : Type} (o : option A) : M A :=
  match o with
  | Some a => ret a
  | None => throw TypeError
  end.

(** [try { body } catch (err) { handler } finally { fin }] *)
Definition try_catch_finally {A : Type}
  (body : M A) (handler : Exn -> M A) (fin : M unit) : M A :=
  fun st =>
    let '(c1, st1) := body st in
    let '(c2, st2) :=
      match c1 with
      | Throw e => handler e st1
      | _ => (c1, st1)
      end in
    match fin st2 with
    | (Normal _, st3) => (c2, st3)
    | (Return, st3) => (Return, st3)
    | (Throw e, st3) => (Throw e, st3)
    end.

(** The state setters. *)
Definition setPrompt (v : string) : M unit := fun st =>
  (Normal tt,
   mkState v (brand st) (results st) (loading st) (error st)
           (fetched st) (alerts st) (downloads st) (console st)).

Definition setBrand (v : string) : M unit := fun st =>
  (Normal tt,
   mkState (prompt st) v (results st) (loading st) (error st)
           (fetched st) (alerts st) (downloads st) (console st)).

Definition setResults (f : list Result.t -> list Result.t) : M unit := fun st =>
  (Normal tt,
   mkState (prompt st) (brand st) (f (results st)) (loading st) (error st)
           (fetched st) (alerts st) (downloads st) (console st)).

Definition setLoading (v : bool) : M unit := fun st =>
  (Normal tt,
   mkState (prompt st) (brand st) (results st) v (error st)
           (fetched st) (alerts st) (downloads st) (console st)).

Definition setError (v : JSValue) : M unit := fun st =>
  (Normal tt,
   mkState (prompt st) (brand st) (results st) (loading st) v
           (fetched st) (alerts st) (downloads st) (console st)).

(** [console.error('Error:', err)] *)
Definition console_error (err : Exn) : M unit := fun st =>
  (Normal tt,
   mkState (prompt st) (brand st) (results st) (loading st) (error st)
           (fetched st) (alerts st) (downloads st) (console st ++ [err])).

(** [alert(msg)] *)
Definition alert (msg : string) : M unit := fun st =>
  (Normal tt,
   mkState (prompt st) (brand st) (results st) (loading st) (error st)
           (fetched st) (alerts st ++ [msg]) (downloads st) (console st)).

(** The Blob, the hidden link with its [download] attribute, and the click
    on it: one file offered. *)
Definition click_download (d : Download) : M unit := fun st =>
  (Normal tt,
   mkState (prompt st) (brand st) (results st) (loading st) (error st)
           (fetched st) (alerts st) (downloads st ++ [d]) (console st)).

(** ** The handlers of [App] *)

Section App.

(** [import.meta.env.VITE_API_URL], unset or a string. *)
Variable VITE_API_URL : option string.

(** What the backend answers to a request. *)
Variable network : Request -> FetchOutcome.

Definition API_URL : string :=
  match VITE_API_URL with
  | Some s => if truthy (JStr s) then s else "http://localhost:4000"
  | None => "http://localhost:4000"
  end.

(** [await fetch(...)]: the request leaves, then the promise settles. *)
Definition fetch (req : Request) : M Response := fun st =>
  let st' :=
    mkState (prompt st) (brand st) (results st) (loading st) (error st)
            (fetched st ++ [req]) (alerts st) (downloads st) (console st) in
  match network req with
  | FetchRejected => (Throw NetworkError, st')
  | FetchResolved response => (Normal response, st')
  end.

(** [await response.json()] *)
Definition json (response : Response) : M JSValue :=
  match json_body response with
  | Some data => ret data
  | None => throw SyntaxError
  end.

(** [handleSubmit], from the validation on ([e.preventDefault()] touches
    the event only).  [prompt] and [brand] in the request are the values
    the handler closed over.  The inputs and the button are disabled
    while [loading], so the handler runs to its end before the next event
    and the two awaits are sequenced here. *)
Definition handleSubmit : M unit :=
  st <- get_state ;;
  if negb (truthy (JStr (trim (prompt st)))) || negb (truthy (JStr (trim (brand st))))
  then
    (setError (JStr "Please fill in both prompt and brand name") ;;
     return_)
  else
    (setLoading true ;;
     setError JNull ;;
     try_catch_finally
       (response <- fetch (mkRequest (API_URL ++ "/api/check") "POST"
                             "application/json" (prompt st) (brand st)) ;;
        data <- json response ;;
        data_error <- or_TypeError (get_member data "error") ;;
        if truthy data_error
        then
          (setError data_error ;;
           setLoading false ;;
           return_)
        else
          (data_prompt <- or_TypeError (get_member data "prompt") ;;
           data_brand <- or_TypeError (get_member data "brand") ;;
           data_mentioned <- or_TypeError (get_member data "mentioned") ;;
           data_position <- or_TypeError (get_member data "position") ;;
           data_raw <- or_TypeError (get_member data "raw") ;;
           setResults (fun prev =>
             (prev ++
              [Result.mk data_prompt data_brand data_mentioned data_position data_raw
                 (js_or data_error
                    (if strict_eq_str data_raw "API_ERROR"
                     then JStr "API Error: Service temporarily unavailable"
                     else JUndefined))])%list) ;;
           (if truthy (js_or data_error (JBool (strict_eq_str data_raw "API_ERROR")))
            then setError (js_or data_error
                             (JStr "API Error: Service temporarily unavailable"))
            else ret tt) ;;
           setPrompt EmptyString ;;
           setBrand EmptyString))
       (fun err =>
          setError (JStr "Failed to connect to backend. Please check if the server is running.") ;;
          console_error err)
       (setLoading false)).

End App.

(** One row of the export, in the order the callback evaluates it. *)
Definition csv_row (result : Result.t) : M string :=
  prompt <- or_TypeError (call_replace_quotes (Result.prompt result)) ;;
  brand <- or_TypeError (call_replace_quotes (Result.brand result)) ;;
  let mentioned := if truthy (Result.mentioned result) then "Yes" else "No" in
  position <- or_TypeError (call_toString (Result.position result)) ;;
  ret (join "," [String DQUOTE prompt ++ String DQUOTE EmptyString;
                 String DQUOTE brand ++ String DQUOTE EmptyString;
                 mentioned;
                 position]).

(** [xs.map(f)] for a callback that may throw. *)
Fixpoint map_ {A B : Type} (f : A -> M B) (xs : list A) : M (list B) :=
  match xs with
  | [] => ret []
  | x :: rest =>
      y <- f x ;;
      ys <- map_ f rest ;;
      ret (y :: ys)
  end.

(** [downloadCSV] *)
Definition downloadCSV : M unit :=
  st <- get_state ;;
  if (List.length (results st) =? 0)%nat
  then
    (alert "No results to download" ;;
     return_)
  else
    (let headers := ["Prompt"; "Brand"; "Mentioned"; "Position"] in
     rows <- map_ csv_row (results st) ;;
     let csvContent := join (String LF EmptyString) (join "," headers :: rows) in
     click_download
       (mkDownload "brand-mention-results.csv" "text/csv;charset=utf-8;" csvContent)).

(** ** Sessions *)

(** What the user can do to the page.  A submission carries the answer
    the backend gives to it. *)
Inductive Event : Type :=
| ChangePrompt (value : string)
| ChangeBrand (value : string)
| SubmitForm (network : Request -> FetchOutcome)
| ClickDownload.

Definition handler (env : option string) (ev : Event) : M unit :=
  match ev with
  | ChangePrompt value => setPrompt value
  | ChangeBrand value => setBrand value
  | SubmitForm network => handleSubmit env network
  | ClickDownload => downloadCSV
  end.

(** The state a handler leaves behind. *)
Definition after {A : Type} (m : M A) (st : State) : State := snd (m st).

Definition session (env : option string) (evs : list Event) (st : State) : State :=
  fold_left (fun s ev => after (handler env ev) s) evs st.

(** The outgoing request of a submission from [st]. *)
Definition request_of (env : option string) (st : State) : Request :=
  mkRequest (API_URL env ++ "/api/check") "POST" "application/json"
            (prompt st) (brand st).

(** A backend that answers every request with the same body. *)
Definition answers (code : Z) (body : option JSValue) : Request -> FetchOutcome :=
  fun _ => FetchResolved (mkResponse code body).

Definition unreachable : Request -> FetchOutcome := fun _ => FetchRejected.

(** ** Vocabulary of the specification *)

(** The messages the banner can show. *)
Definition validation_notice : string := "Please fill in both prompt and brand name".
Definition connectivity_message : string :=
  "Failed to connect to backend. Please check if the server is running.".
Definition fallback_message : string := "API Error: Service temporarily unavailable".

(** A record as [interface Result] declares it: text, text, boolean and
    a safe integer. *)
Record Entry : Type := mkEntry {
  entry_prompt : string;
  entry_brand : string;
  entry_mentioned : bool;
  entry_position : Z
}.

Definition well_typed (r : Result.t) (e : Entry) : Prop :=
  Result.prompt r = JStr (entry_prompt e) /\
  Result.brand r = JStr (entry_brand e) /\
  Result.mentioned r = JBool (entry_mentioned e) /\
  Result.position r = JNum (entry_position e) /\
  safe_integer (entry_position e).

(** The export as the specification words it: a field is put between
    double quotes with every inner double quote written twice. *)
Definition doubled (s : string) : string :=
  string_of_list_ascii
    (flat_map (fun c => if Ascii.eqb c DQUOTE then [DQUOTE; DQUOTE] else [c])
       (list_ascii_of_string s)).

(** Reading a doubled field back: a pair of double quotes is one. *)
Fixpoint undoubled (s : string) : string :=
  match s with
  | EmptyString => EmptyString
  | String c rest =>
      match rest with
      | String d rest' =>
          if Ascii.eqb c DQUOTE && Ascii.eqb d DQUOTE
          then String DQUOTE (undoubled rest')
          else String c (undoubled rest)
      | EmptyString => String c EmptyString
      end
  end.

(** Text that [trim] empties. *)
Fixpoint blank (s : string) : bool :=
  match s with
  | EmptyString => true
  | String c rest => is_white_space c && blank rest
  end.

Definition quoted (s : string) : string :=
  String DQUOTE (doubled s ++ String DQUOTE EmptyString).

Definition spec_csv_line (e : Entry) : string :=
  quoted (entry_prompt e) ++ "," ++ quoted (entry_brand e) ++ "," ++
  (if entry_mentioned e then "Yes" else "No") ++ "," ++
  Number_toString (entry_position e).

Definition spec_csv_document (entries : list Entry) : string :=
  join (String LF EmptyString)
    ("Prompt,Brand,Mentioned,Position" :: map spec_csv_line entries).

(** The records [csv_row] can print: [replace] is callable on the prompt
    and the brand, [toString] on the position. *)
Definition exportable (r : Result.t) : bool :=
  match call_replace_quotes (Result.prompt r),
        call_replace_quotes (Result.brand r),
        call_toString (Result.position r) with
  | Some _, Some _, Some _ => true
  | _, _, _ => false
  end.

Definition is_string (v : JSValue) : bool :=
  match v with
  | JStr _ => true
  | _ => false
  end.

Definition is_number (v : JSValue) : bool :=
  match v with
  | JNum _ => true
  | _ => false
  end.

(** The record an empty object leaves in the log. *)
Definition blank_record : Result.t :=
  Result.mk JUndefined JUndefined JUndefined JUndefined JUndefined JUndefined.

(** The scenarios of the specification. *)
Definition draft_A : State :=
  mkState "Best CRM?" "Acme" [] false JNull [] [] [] [].

Definition body_A : JSValue :=
  JObj [("prompt", JStr "Best CRM?"); ("brand", JStr "Acme");
        ("mentioned", JBool true); ("position", JNum 3)].

Definition body_B : JSValue := JObj [("error", JStr "rate limited")].

Definition body_C : JSValue :=
  JObj [("prompt", JStr "p"); ("brand", JStr "b"); ("mentioned", JBool false);
        ("position", JNum 0); ("raw", JStr "API_ERROR")].

(** Both an error message and the sentinel. *)
Definition body_both : JSValue :=
  JObj [("error", JStr "quota exceeded"); ("raw", JStr "API_ERROR")].

(** A backend that normalises what it echoes. *)
Definition body_normalised : JSValue :=
  JObj [("prompt", JStr "best crm?"); ("brand", JStr "ACME");
        ("mentioned", JBool false); ("position", JNum (-1))].

Definition record_A : Result.t :=
  Result.mk (JStr "Best CRM?") (JStr "Acme") (JBool true) (JNum 3) JUndefined JUndefined.

Definition record_C : Result.t :=
  Result.mk (JStr "p") (JStr "b") (JBool false) (JNum 0) (JStr "API_ERROR")
    (JStr fallback_message).

(** The brand of the quoting scenario: A c, a double quote, m e. *)
Definition brand_with_quote : string := "Ac" ++ String DQUOTE "me".

Definition record_quote : Result.t :=
  Result.mk (JStr "p") (JStr brand_with_quote) (JBool false) (JNum (-1)) JUndefined JUndefined.

(** A state whose log holds three typed records, their entries, and the
    text their export must have. *)
Definition logged : State :=
  mkState EmptyString EmptyString [record_A; record_C; record_quote] false JNull
    [] [] [] [].

Definition logged_entries : list Entry :=
  [mkEntry "Best CRM?" "Acme" true 3;
   mkEntry "p" "b" false 0;
   mkEntry "p" brand_with_quote false (-1)].

Definition logged_csv : string :=
  let q := String DQUOTE EmptyString in
  let nl := String LF EmptyString in
  "Prompt,Brand,Mentioned,Position" ++ nl ++
  q ++ "Best CRM?" ++ q ++ "," ++ q ++ "Acme" ++ q ++ ",Yes,3" ++ nl ++
  q ++ "p" ++ q ++ "," ++ q ++ "b" ++ q ++ ",No,0" ++ nl ++
  q ++ "p" ++ q ++ "," ++ q ++ "Ac" ++ q ++ q ++ "me" ++ q ++ ",No,-1".

(** ** The outcomes of a submission *)

(** How [handleSubmit] can end: at the validation, in the catch block, in
    the error branch, or past the append. *)
Inductive Outcome : Type :=
| ValidationError
| TransportFailure (exn : Exn)
| BackendError (message : JSValue)
| Recorded (record : Result.t).

(** The completion and the state each outcome leaves. *)
Definition settle (env : option string) (st : State) (o : Outcome) : Completion unit * State :=
  match o with
  | ValidationError =>
      (Return,
       mkState (prompt st) (brand st) (results st) (loading st) (JStr validation_notice)
         (fetched st) (alerts st) (downloads st) (console st))
  | TransportFailure exn =>
      (Normal tt,
       mkState (prompt st) (brand st) (results st) false (JStr connectivity_message)
         (fetched st ++ [request_of env st]) (alerts st) (downloads st)
         (console st ++ [exn]))
  | BackendError message =>
      (Return,
       mkState (prompt st) (brand st) (results st) false message
         (fetched st ++ [request_of env st]) (alerts st) (downloads st) (console st))
  | Recorded record =>
      (Normal tt,
       mkState EmptyString EmptyString (results st ++ [record]) false
         (match Result.error record with
          | JUndefined => JNull
          | message => message
          end)
         (fetched st ++ [request_of env st]) (alerts st) (downloads st) (console st))
  end.

(** The error of a record as line 59 leaves it: the fallback message
    under the sentinel, undefined otherwise. *)
Definition error_derived (r : Result.t) : Prop :=
  Result.error r =
  if strict_eq_str (Result.raw r) "API_ERROR" then JStr fallback_message else JUndefined.

(** When an outcome can be the one of a submission from [st]. *)
Definition admissible (st : State) (o : Outcome) : Prop :=
  match o with
  | ValidationError => trim (prompt st) = EmptyString \/ trim (brand st) = EmptyString
  | TransportFailure _ =>
      trim (prompt st) <> EmptyString /\ trim (brand st) <> EmptyString
  | BackendError message =>
      trim (prompt st) <> EmptyString /\ trim (brand st) <> EmptyString /\
      truthy message = true
  | Recorded record =>
      trim (prompt st) <> EmptyString /\ trim (brand st) <> EmptyString /\
      error_derived record
  end.

(** A request whose prompt and brand both hold more than white space. *)
Definition filled_request (req : Request) : bool :=
  negb (blank (body_prompt req)) && negb (blank (body_brand req)).

(** A backend that keeps to the declared [Result] shape whenever it
    reports no error: string prompt and brand, numeric position. *)
Definition honours_contract (net : Request -> FetchOutcome) : Prop :=
  forall (req : Request) (code : Z) (data e : JSValue),
    net req = FetchResolved (mkResponse code (Some data)) ->
    get_member data "error" = Some e ->
    truthy e = false ->
    exists (p b : string) (n : Z),
      get_member data "prompt" = Some (JStr p) /\
      get_member data "brand" = Some (JStr b) /\
      get_member data "position" = Some (JNum n).

Definition contract_kept (ev : Event) : Prop :=
  match ev with
  | SubmitForm net => honours_contract net
  | _ => True
  end.

(** ** What the page lets the user do *)

(** [disabled={loading}] on the textarea, the input and the button. *)
Definition form_disabled (st : State) : bool := loading st.

(** The results section, which holds the download button, is rendered
    under [results.length > 0]. *)
Definition download_button_rendered (st : State) : bool :=
  (0 <? List.length (results st))%nat.

(** An event reaches its handler only from a control that is rendered and
    not disabled. *)
Definition enabled (st : State) (ev : Event) : bool :=
  match ev with
  | ChangePrompt _ | ChangeBrand _ | SubmitForm _ => negb (form_disabled st)
  | ClickDownload => download_button_rendered st
  end.

Definition ui_step (env : option string) (st : State) (ev : Event) : State :=
  if enabled st ev then after (handler env ev) st else st.

Definition ui_session (env : option string) (evs : list Event) (st : State) : State :=
  fold_left (ui_step env) evs st.

(** ** Reading the export back *)

Definition COMMA : ascii := ","%char.

(** A reader of comma-separated text in the usual format: fields split
    at commas, records at line feeds; a field that opens with a double
    quote runs to the next lone double quote, a pair of them standing for
    one.  [field] and [row] hold what was read of the current field and
    record. *)
Inductive Mode : Type :=
| Bare
| Quoted
| Closing.

Fixpoint read_csv (s : string) (mode : Mode) (field : string) (row : list string)
  (rows : list (list string)) : option (list (list string)) :=
  match s with
  | EmptyString =>
      match mode with
      | Quoted => None
      | Bare | Closing => Some (rows ++ [row ++ [field]])%list
      end
  | String c rest =>
      match mode with
      | Bare =>
          if Ascii.eqb c DQUOTE then
            match field with
            | EmptyString => read_csv rest Quoted EmptyString row rows
            | String _ _ => None
            end
          else if Ascii.eqb c COMMA then
            read_csv rest Bare EmptyString (row ++ [field])%list rows
          else if Ascii.eqb c LF then
            read_csv rest Bare EmptyString [] (rows ++ [row ++ [field]])%list
          else read_csv rest Bare (field ++ String c EmptyString) row rows
      | Quoted =>
          if Ascii.eqb c DQUOTE then read_csv rest Closing field row rows
          else read_csv rest Quoted (field ++ String c EmptyString) row rows
      | Closing =>
          if Ascii.eqb c DQUOTE then
            read_csv rest Quoted (field ++ String DQUOTE EmptyString) row rows
          else if Ascii.eqb c COMMA then
            read_csv rest Bare EmptyString (row ++ [field])%list rows
          else if Ascii.eqb c LF then
            read_csv rest Bare EmptyString [] (rows ++ [row ++ [field]])%list
          else None
      end
  end.

Definition parse_csv (s : string) : option (list (list string)) :=
  read_csv s Bare EmptyString [] [].

(** Text with no comma, double quote or line feed. *)
Fixpoint plain (s : string) : bool :=
  match s with
  | EmptyString => true
  | String c rest =>
      negb (Ascii.eqb c DQUOTE) && negb (Ascii.eqb c COMMA) && negb (Ascii.eqb c LF) &&
      plain rest
  end.

(** The four cells of a typed record. *)
Definition cells (e : Entry) : list string :=
  [entry_prompt e; entry_brand e;
   if entry_mentioned e then "Yes" else "No";
   Number_toString (entry_position e)].

(** A line of text that reads, from the start of a record, as the cells
    [cs], the last of them still open. *)
Definition row_reads (line : string) (cs : list string) : Prop :=
  exists (init : list string) (last : string),
    cs = (init ++ [last])%list /\
    forall (rest : string) (rows : list (list string)),
      read_csv (line ++ rest) Bare EmptyString [] rows = read_csv rest Bare last init rows.

(** The rows of the export as a function of the log. *)
Definition rows_of_log (rs : list Result.t) : Completion (list string) :=
  fst (map_ csv_row rs initial).

(** A prompt with a comma, a quote and a line feed in it. *)
Definition awkward_prompt : string :=
  "a,b" ++ String DQUOTE ("c" ++ String LF "d").

Definition awkward_state : State :=
  mkState EmptyString EmptyString
    [Result.mk (JStr awkward_prompt) (JStr brand_with_quote) (JBool true) (JNum (-2))
       JUndefined JUndefined;
     record_C]
    false JNull [] [] [] [].

Definition awkward_entries : list Entry :=
  [mkEntry awkward_prompt brand_with_quote true (-2); mkEntry "p" "b" false 0].

(** Unfolds a handler down to the state it builds. *)
Ltac run_handler :=
  unfold after, handleSubmit, downloadCSV, bind, get_state, try_catch_finally,
    fetch, json, or_TypeError, setError, setLoading, setResults, setPrompt,
    setBrand, console_error, alert, click_download, return_, ret, throw.

(** * Properties *)

(** ** Strings and values *)

Lemma truthy_JStr (s : string) : truthy (JStr s) = true <-> s <> EmptyString.
Proof.
  destruct s as [|c r]; simpl; split; intro H; congruence.
Qed.

Lemma falsy_JStr (s : string) : truthy (JStr s) = false <-> s = EmptyString.
Proof.
  destruct s as [|c r]; simpl; split; intro H; congruence.
Qed.

Lemma strict_eq_str_true (v : JSValue) (s : string) :
  strict_eq_str v s = true <-> v = JStr s.
Proof.
  destruct v; simpl; split; intro H; try discriminate.
  - apply String.eqb_eq in H. now subst.
  - injection H as ->. apply String.eqb_refl.
Qed.

Lemma strict_eq_str_false (v : JSValue) (s : string) :
  strict_eq_str v s = false <-> v <> JStr s.
Proof.
  rewrite <- strict_eq_str_true. destruct (strict_eq_str v s); split; congruence.
Qed.

(** Every property read succeeds once one did: only null and undefined
    refuse. *)
Lemma get_member_total (v : JSValue) (k k' : string) (w : JSValue) :
  get_member v k = Some w -> exists w', get_member v k' = Some w'.
Proof.
  destruct v; simpl; try discriminate; intros _; eauto.
  destruct (own_property k' members); eauto.
Qed.

Lemma replace_quotes_doubled (s : string) : replace_quotes s = doubled s.
Proof.
  unfold doubled. induction s as [|c r IH]; simpl; [reflexivity|].
  rewrite IH. destruct (Ascii.eqb c DQUOTE); reflexivity.
Qed.

(** The doubling loses nothing. *)
Lemma undoubled_replace_quotes (s : string) : undoubled (replace_quotes s) = s.
Proof.
  induction s as [|c r IH]; [reflexivity|].
  cbn [replace_quotes]. destruct (Ascii.eqb c DQUOTE) eqn:Hc.
  - apply Ascii.eqb_eq in Hc. subst c.
    cbn [undoubled]. rewrite Ascii.eqb_refl. simpl. now rewrite IH.
  - cbn [undoubled]. rewrite Hc. simpl.
    destruct (replace_quotes r) eqn:Hr.
    + destruct r as [|c' r']; [reflexivity|].
      simpl in Hr. destruct (Ascii.eqb c' DQUOTE); discriminate.
    + now rewrite IH.
Qed.

Lemma trimEnd_empty (s : string) : trimEnd s = EmptyString <-> blank s = true.
Proof.
  induction s as [|c r IH]; simpl; [tauto|].
  destruct (trimEnd r) eqn:Hr.
  - destruct (is_white_space c); simpl.
    + split; intros _; [now apply IH | reflexivity].
    + split; discriminate.
  - split; [discriminate|].
    intros H. apply andb_true_iff in H as [_ H]. apply IH in H. discriminate.
Qed.

Lemma blank_trimStart (s : string) : blank (trimStart s) = blank s.
Proof.
  induction s as [|c r IH]; simpl; [reflexivity|].
  destruct (is_white_space c) eqn:Hc; simpl; [exact IH | now rewrite Hc].
Qed.

(** [trim] leaves nothing exactly of the texts made of white space. *)
Lemma trim_empty_iff_blank (s : string) : trim s = EmptyString <-> blank s = true.
Proof.
  unfold trim. now rewrite trimEnd_empty, blank_trimStart.
Qed.

(** The text printed for a position reads back, as a decimal numeral, to
    the position itself. *)
Lemma Number_toString_decimal (n : Z) :
  option_map Z.of_int (NilZero.int_of_string (Number_toString n)) = Some n.
Proof.
  unfold Number_toString.
  rewrite NilZero.isi.
  - simpl. now rewrite DecimalZ.of_to.
  - destruct n as [|p|p]; simpl; try discriminate.
    intros [= H]. now apply DecimalPos.Unsigned.to_uint_nonnil in H.
  - destruct n as [|p|p]; simpl; try discriminate.
    intros [= H]. now apply DecimalPos.Unsigned.to_uint_nonnil in H.
Qed.

(** ** The paths of [handleSubmit] *)

Section Validation.

Variable env : option string.
Variable net : Request -> FetchOutcome.
Variable st : State.

Lemma handleSubmit_invalid :
  trim (prompt st) = EmptyString \/ trim (brand st) = EmptyString ->
  handleSubmit env net st =
  (Return,
   mkState (prompt st) (brand st) (results st) (loading st) (JStr validation_notice)
     (fetched st) (alerts st) (downloads st) (console st)).
Proof.
  intros H. run_handler.
  destruct H as [H|H]; rewrite H; simpl; rewrite ?orb_true_r; reflexivity.
Qed.

End Validation.

(** A submission that passes validation: the request is sent. *)
Section Sent.

Variable env : option string.
Variable net : Request -> FetchOutcome.
Variable st : State.
Hypothesis prompt_filled : trim (prompt st) <> EmptyString.
Hypothesis brand_filled : trim (brand st) <> EmptyString.

Lemma validation_passes :
  negb (truthy (JStr (trim (prompt st)))) || negb (truthy (JStr (trim (brand st)))) = false.
Proof.
  apply truthy_JStr in prompt_filled, brand_filled.
  now rewrite prompt_filled, brand_filled.
Qed.

Lemma handleSubmit_rejected :
  net (request_of env st) = FetchRejected ->
  handleSubmit env net st =
  (Normal tt,
   mkState (prompt st) (brand st) (results st) false (JStr connectivity_message)
     (fetched st ++ [request_of env st]) (alerts st) (downloads st)
     (console st ++ [NetworkError])).
Proof.
  intros Hnet. unfold request_of in *. run_handler.
  rewrite validation_passes. simpl. rewrite Hnet. reflexivity.
Qed.

Lemma handleSubmit_not_json (code : Z) :
  net (request_of env st) = FetchResolved (mkResponse code None) ->
  handleSubmit env net st =
  (Normal tt,
   mkState (prompt st) (brand st) (results st) false (JStr connectivity_message)
     (fetched st ++ [request_of env st]) (alerts st) (downloads st)
     (console st ++ [SyntaxError])).
Proof.
  intros Hnet. unfold request_of in *. run_handler.
  rewrite validation_passes. simpl. rewrite Hnet. reflexivity.
Qed.

(** A body on which the read of [data.error] throws (the JSON text
    [null]) is caught like a transport failure. *)
Lemma handleSubmit_unreadable (code : Z) (data : JSValue) :
  net (request_of env st) = FetchResolved (mkResponse code (Some data)) ->
  get_member data "error" = None ->
  handleSubmit env net st =
  (Normal tt,
   mkState (prompt st) (brand st) (results st) false (JStr connectivity_message)
     (fetched st ++ [request_of env st]) (alerts st) (downloads st)
     (console st ++ [TypeError])).
Proof.
  intros Hnet He. unfold request_of in *. run_handler.
  rewrite validation_passes. simpl. rewrite Hnet. simpl. rewrite He. reflexivity.
Qed.

Lemma handleSubmit_backend_error (code : Z) (data e : JSValue) :
  net (request_of env st) = FetchResolved (mkResponse code (Some data)) ->
  get_member data "error" = Some e ->
  truthy e = true ->
  handleSubmit env net st =
  (Return,
   mkState (prompt st) (brand st) (results st) false e
     (fetched st ++ [request_of env st]) (alerts st) (downloads st) (console st)).
Proof.
  intros Hnet He Ht. unfold request_of in *. run_handler.
  rewrite validation_passes. simpl. rewrite Hnet. simpl. rewrite He, Ht. reflexivity.
Qed.

(** The append path, for the sentinel and for any other [raw]. *)
Lemma handleSubmit_appends (code : Z) (data e p b m pos r : JSValue) :
  net (request_of env st) = FetchResolved (mkResponse code (Some data)) ->
  get_member data "error" = Some e ->
  truthy e = false ->
  get_member data "prompt" = Some p ->
  get_member data "brand" = Some b ->
  get_member data "mentioned" = Some m ->
  get_member data "position" = Some pos ->
  get_member data "raw" = Some r ->
  handleSubmit env net st =
  (Normal tt,
   mkState EmptyString EmptyString
     (results st ++
      [Result.mk p b m pos r
         (if strict_eq_str r "API_ERROR" then JStr fallback_message else JUndefined)])
     false
     (if strict_eq_str r "API_ERROR" then JStr fallback_message else JNull)
     (fetched st ++ [request_of env st]) (alerts st) (downloads st) (console st)).
Proof.
  intros Hnet He Ht Hp Hb Hm Hpos Hr. unfold request_of in *. run_handler.
  rewrite validation_passes. simpl. rewrite Hnet. simpl.
  rewrite He, Ht, Hp, Hb, Hm, Hpos, Hr. unfold js_or. rewrite Ht. simpl.
  destruct (strict_eq_str r "API_ERROR"); reflexivity.
Qed.

End Sent.

(** ** Validation *)

(** C2: a submission whose trimmed prompt and brand are both non-empty
    issues exactly one backend call, the request built from the draft; a
    submission with an empty trimmed prompt or brand issues none, leaves
    the result log and the draft as they were, and sets the banner to the
    one combined notice. *)
Theorem submit_issues_one_call_iff_filled
  (env : option string) (net : Request -> FetchOutcome) (st : State) :
  (trim (prompt st) <> EmptyString /\ trim (brand st) <> EmptyString ->
   fetched (after (handleSubmit env net) st) = (fetched st ++ [request_of env st])%list) /\
  (trim (prompt st) = EmptyString \/ trim (brand st) = EmptyString ->
   fetched (after (handleSubmit env net) st) = fetched st /\
   results (after (handleSubmit env net) st) = results st /\
   error (after (handleSubmit env net) st) = JStr validation_notice /\
   prompt (after (handleSubmit env net) st) = prompt st /\
   brand (after (handleSubmit env net) st) = brand st /\
   loading (after (handleSubmit env net) st) = loading st).
Proof.
  split.
  - intros [Hp Hb]. unfold after.
    destruct (net (request_of env st)) as [|[code [data|]]] eqn:Hnet.
    + now rewrite (handleSubmit_rejected env net st Hp Hb Hnet).
    + destruct (get_member data "error") as [e|] eqn:He.
      * destruct (truthy e) eqn:Ht.
        -- now rewrite (handleSubmit_backend_error env net st Hp Hb code data e Hnet He Ht).
        -- destruct (get_member_total data "error" "prompt" e He) as [p Hp'].
           destruct (get_member_total data "error" "brand" e He) as [b Hb'].
           destruct (get_member_total data "error" "mentioned" e He) as [m Hm].
           destruct (get_member_total data "error" "position" e He) as [pos Hpos].
           destruct (get_member_total data "error" "raw" e He) as [r Hr].
           now rewrite (handleSubmit_appends env net st Hp Hb code data e p b m pos r
                          Hnet He Ht Hp' Hb' Hm Hpos Hr).
      * now rewrite (handleSubmit_unreadable env net st Hp Hb code data Hnet He).
    + now rewrite (handleSubmit_not_json env net st Hp Hb code Hnet).
  - intros H. unfold after. rewrite (handleSubmit_invalid env net st H).
    simpl. repeat split; reflexivity.
Qed.

Lemma submit_issues_one_call_iff_filled_witness :
  fetched (after (handleSubmit None (answers 200 (Some body_A))) draft_A) =
    [request_of None draft_A] /\
  fetched (after (handleSubmit None (answers 200 (Some body_A))) initial) = [] /\
  results (after (handleSubmit None (answers 200 (Some body_A))) initial) = [] /\
  error (after (handleSubmit None (answers 200 (Some body_A))) initial) =
    JStr validation_notice.
Proof.
  split.
  - apply (proj1 (submit_issues_one_call_iff_filled None (answers 200 (Some body_A)) draft_A)).
    split; vm_compute; discriminate.
  - assert (H : trim (prompt initial) = EmptyString \/ trim (brand initial) = EmptyString)
      by (left; reflexivity).
    destruct (proj2 (submit_issues_one_call_iff_filled None (answers 200 (Some body_A)) initial) H)
      as (Hf & Hr & He & _).
    repeat split; assumption.
Defined.

(** ** Classification of the response *)

(** C1, as stated, fails at scenario B: the body carries a non-empty
    error, the attempt resolves, and prompt and brand still hold the
    draft. *)
Lemma backend_error_does_not_clear_draft :
  get_member body_B "error" = Some (JStr "rate limited") /\
  truthy (JStr "rate limited") = true /\
  prompt (after (handleSubmit None (answers 200 (Some body_B))) draft_A) = "Best CRM?" /\
  brand (after (handleSubmit None (answers 200 (Some body_B))) draft_A) = "Acme" /\
  ~ (prompt (after (handleSubmit None (answers 200 (Some body_B))) draft_A) = EmptyString /\
     brand (after (handleSubmit None (answers 200 (Some body_B))) draft_A) = EmptyString).
Proof.
  repeat split; try reflexivity.
  intros [H _]. vm_compute in H. discriminate H.
Qed.

(** C1, amended: when the parsed body carries a non-empty error, the
    handler returns from the error branch and the draft is left as it
    was: prompt and brand keep their pre-submit values, and loading is
    off. *)
Theorem backend_error_preserves_draft
  (env : option string) (net : Request -> FetchOutcome) (st : State)
  (code : Z) (data e : JSValue) :
  trim (prompt st) <> EmptyString ->
  trim (brand st) <> EmptyString ->
  net (request_of env st) = FetchResolved (mkResponse code (Some data)) ->
  get_member data "error" = Some e ->
  truthy e = true ->
  prompt (after (handleSubmit env net) st) = prompt st /\
  brand (after (handleSubmit env net) st) = brand st /\
  loading (after (handleSubmit env net) st) = false.
Proof.
  intros Hp Hb Hnet He Ht. unfold after.
  rewrite (handleSubmit_backend_error env net st Hp Hb code data e Hnet He Ht).
  simpl. auto.
Qed.

Lemma backend_error_preserves_draft_witness :
  prompt (after (handleSubmit None (answers 200 (Some body_B))) draft_A) = prompt draft_A /\
  brand (after (handleSubmit None (answers 200 (Some body_B))) draft_A) = brand draft_A /\
  loading (after (handleSubmit None (answers 200 (Some body_B))) draft_A) = false.
Proof.
  apply (backend_error_preserves_draft None (answers 200 (Some body_B)) draft_A
           200 body_B (JStr "rate limited")).
  - vm_compute; discriminate.
  - vm_compute; discriminate.
  - reflexivity.
  - reflexivity.
  - reflexivity.
Defined.

(** C4: a non-empty error in the parsed body decides the outcome whatever
    raw holds, the sentinel included: no record is appended and the
    banner is exactly that error. *)
Theorem error_field_takes_precedence
  (env : option string) (net : Request -> FetchOutcome) (st : State)
  (code : Z) (data e : JSValue) :
  trim (prompt st) <> EmptyString ->
  trim (brand st) <> EmptyString ->
  net (request_of env st) = FetchResolved (mkResponse code (Some data)) ->
  get_member data "error" = Some e ->
  truthy e = true ->
  results (after (handleSubmit env net) st) = results st /\
  error (after (handleSubmit env net) st) = e.
Proof.
  intros Hp Hb Hnet He Ht. unfold after.
  rewrite (handleSubmit_backend_error env net st Hp Hb code data e Hnet He Ht).
  simpl. auto.
Qed.

Lemma error_field_takes_precedence_witness :
  get_member body_both "raw" = Some (JStr "API_ERROR") /\
  results (after (handleSubmit None (answers 200 (Some body_both))) draft_A) = results draft_A /\
  error (after (handleSubmit None (answers 200 (Some body_both))) draft_A) = JStr "quota exceeded".
Proof.
  split; [reflexivity|].
  apply (error_field_takes_precedence None (answers 200 (Some body_both)) draft_A
           200 body_both (JStr "quota exceeded")).
  - vm_compute; discriminate.
  - vm_compute; discriminate.
  - reflexivity.
  - reflexivity.
  - reflexivity.
Defined.

(** C3: when the parsed body has no non-empty error and raw is not the
    sentinel, exactly one record is appended to the log; its error is
    unset, its prompt and brand are the body's own members (whatever the
    draft sent), the banner ends cleared and the draft is emptied. *)
Theorem success_appends_one_record
  (env : option string) (net : Request -> FetchOutcome) (st : State)
  (code : Z) (data e : JSValue) :
  trim (prompt st) <> EmptyString ->
  trim (brand st) <> EmptyString ->
  net (request_of env st) = FetchResolved (mkResponse code (Some data)) ->
  get_member data "error" = Some e ->
  truthy e = false ->
  get_member data "raw" <> Some (JStr "API_ERROR") ->
  exists record : Result.t,
    results (after (handleSubmit env net) st) = (results st ++ [record])%list /\
    Result.error record = JUndefined /\
    get_member data "prompt" = Some (Result.prompt record) /\
    get_member data "brand" = Some (Result.brand record) /\
    error (after (handleSubmit env net) st) = JNull /\
    prompt (after (handleSubmit env net) st) = EmptyString /\
    brand (after (handleSubmit env net) st) = EmptyString.
Proof.
  intros Hp Hb Hnet He Ht Hraw.
  destruct (get_member_total data "error" "prompt" e He) as [p Hp'].
  destruct (get_member_total data "error" "brand" e He) as [b Hb'].
  destruct (get_member_total data "error" "mentioned" e He) as [m Hm].
  destruct (get_member_total data "error" "position" e He) as [pos Hpos].
  destruct (get_member_total data "error" "raw" e He) as [r Hr].
  assert (Hs : strict_eq_str r "API_ERROR" = false).
  { apply strict_eq_str_false. intros ->. now apply Hraw. }
  unfold after.
  rewrite (handleSubmit_appends env net st Hp Hb code data e p b m pos r
             Hnet He Ht Hp' Hb' Hm Hpos Hr).
  rewrite Hs. simpl.
  exists (Result.mk p b m pos r JUndefined). simpl. repeat split; assumption.
Qed.

Lemma success_appends_one_record_witness :
  exists record : Result.t,
    results (after (handleSubmit None (answers 200 (Some body_normalised))) draft_A) =
      (results draft_A ++ [record])%list /\
    Result.error record = JUndefined /\
    get_member body_normalised "prompt" = Some (Result.prompt record) /\
    get_member body_normalised "brand" = Some (Result.brand record) /\
    error (after (handleSubmit None (answers 200 (Some body_normalised))) draft_A) = JNull /\
    prompt (after (handleSubmit None (answers 200 (Some body_normalised))) draft_A) = EmptyString /\
    brand (after (handleSubmit None (answers 200 (Some body_normalised))) draft_A) = EmptyString.
Proof.
  apply (success_appends_one_record None (answers 200 (Some body_normalised)) draft_A
           200 body_normalised JUndefined).
  - vm_compute; discriminate.
  - vm_compute; discriminate.
  - reflexivity.
  - reflexivity.
  - reflexivity.
  - vm_compute; discriminate.
Defined.

(** C5: when the parsed body has no non-empty error and raw is the
    sentinel, exactly one record is appended, its error is the fixed
    fallback message, and the banner is set to that same message. *)
Theorem mention_error_appends_flagged_record
  (env : option string) (net : Request -> FetchOutcome) (st : State)
  (code : Z) (data e : JSValue) :
  trim (prompt st) <> EmptyString ->
  trim (brand st) <> EmptyString ->
  net (request_of env st) = FetchResolved (mkResponse code (Some data)) ->
  get_member data "error" = Some e ->
  truthy e = false ->
  get_member data "raw" = Some (JStr "API_ERROR") ->
  exists record : Result.t,
    results (after (handleSubmit env net) st) = (results st ++ [record])%list /\
    Result.error record = JStr "API Error: Service temporarily unavailable" /\
    error (after (handleSubmit env net) st) =
      JStr "API Error: Service temporarily unavailable".
Proof.
  intros Hp Hb Hnet He Ht Hraw.
  destruct (get_member_total data "error" "prompt" e He) as [p Hp'].
  destruct (get_member_total data "error" "brand" e He) as [b Hb'].
  destruct (get_member_total data "error" "mentioned" e He) as [m Hm].
  destruct (get_member_total data "error" "position" e He) as [pos Hpos].
  unfold after.
  rewrite (handleSubmit_appends env net st Hp Hb code data e p b m pos (JStr "API_ERROR")
             Hnet He Ht Hp' Hb' Hm Hpos Hraw).
  simpl. eexists. repeat split.
Qed.

Lemma mention_error_appends_flagged_record_witness :
  exists record : Result.t,
    results (after (handleSubmit None (answers 200 (Some body_C))) draft_A) =
      (results draft_A ++ [record])%list /\
    Result.error record = JStr "API Error: Service temporarily unavailable" /\
    error (after (handleSubmit None (answers 200 (Some body_C))) draft_A) =
      JStr "API Error: Service temporarily unavailable".
Proof.
  apply (mention_error_appends_flagged_record None (answers 200 (Some body_C)) draft_A
           200 body_C JUndefined).
  - vm_compute; discriminate.
  - vm_compute; discriminate.
  - reflexivity.
  - reflexivity.
  - reflexivity.
  - reflexivity.
Defined.

(** C6: when the fetch rejects, or the body of the response is not JSON,
    no record is appended, the banner is the fixed connectivity message,
    and prompt and brand keep their pre-submit values. *)
Theorem transport_failure_keeps_log_and_draft
  (env : option string) (net : Request -> FetchOutcome) (st : State) :
  trim (prompt st) <> EmptyString ->
  trim (brand st) <> EmptyString ->
  net (request_of env st) = FetchRejected \/
  (exists code : Z, net (request_of env st) = FetchResolved (mkResponse code None)) ->
  results (after (handleSubmit env net) st) = results st /\
  error (after (handleSubmit env net) st) =
    JStr "Failed to connect to backend. Please check if the server is running." /\
  prompt (after (handleSubmit env net) st) = prompt st /\
  brand (after (handleSubmit env net) st) = brand st.
Proof.
  intros Hp Hb [Hnet | [code Hnet]]; unfold after.
  - rewrite (handleSubmit_rejected env net st Hp Hb Hnet). simpl. auto.
  - rewrite (handleSubmit_not_json env net st Hp Hb code Hnet). simpl. auto.
Qed.

Lemma transport_failure_keeps_log_and_draft_witness :
  (results (after (handleSubmit None unreachable) draft_A) = results draft_A /\
   error (after (handleSubmit None unreachable) draft_A) =
     JStr "Failed to connect to backend. Please check if the server is running." /\
   prompt (after (handleSubmit None unreachable) draft_A) = prompt draft_A /\
   brand (after (handleSubmit None unreachable) draft_A) = brand draft_A) /\
  (results (after (handleSubmit None (answers 502 None)) draft_A) = results draft_A /\
   error (after (handleSubmit None (answers 502 None)) draft_A) =
     JStr "Failed to connect to backend. Please check if the server is running." /\
   prompt (after (handleSubmit None (answers 502 None)) draft_A) = prompt draft_A /\
   brand (after (handleSubmit None (answers 502 None)) draft_A) = brand draft_A).
Proof.
  split.
  - apply (transport_failure_keeps_log_and_draft None unreachable draft_A).
    + vm_compute; discriminate.
    + vm_compute; discriminate.
    + left; reflexivity.
  - apply (transport_failure_keeps_log_and_draft None (answers 502 None) draft_A).
    + vm_compute; discriminate.
    + vm_compute; discriminate.
    + right; exists 502%Z; reflexivity.
Defined.

(** C9: the status code plays no part.  A response whose body parses
    leaves the same state as a 200 response with that body; with any
    status, 500 included, a body without a non-empty error and without
    the sentinel has one record appended and the banner cleared; and a
    response of any status whose body is not JSON is handled as a
    transport failure. *)
Theorem status_code_is_ignored
  (env : option string) (net : Request -> FetchOutcome) (st : State)
  (code : Z) (body : option JSValue) :
  trim (prompt st) <> EmptyString ->
  trim (brand st) <> EmptyString ->
  net (request_of env st) = FetchResolved (mkResponse code body) ->
  handleSubmit env net st = handleSubmit env (answers 200 body) st /\
  (forall data e : JSValue,
     body = Some data ->
     get_member data "error" = Some e ->
     truthy e = false ->
     get_member data "raw" <> Some (JStr "API_ERROR") ->
     exists record : Result.t,
       results (after (handleSubmit env net) st) = (results st ++ [record])%list /\
       Result.error record = JUndefined /\
       error (after (handleSubmit env net) st) = JNull) /\
  (body = None ->
   results (after (handleSubmit env net) st) = results st /\
   error (after (handleSubmit env net) st) = JStr connectivity_message /\
   prompt (after (handleSubmit env net) st) = prompt st /\
   brand (after (handleSubmit env net) st) = brand st).
Proof.
  intros Hp Hb Hnet. split; [|split].
  - assert (H200 : answers 200 body (request_of env st) =
                   FetchResolved (mkResponse 200 body)) by reflexivity.
    destruct body as [data|].
    + destruct (get_member data "error") as [e|] eqn:He.
      * destruct (truthy e) eqn:Ht.
        -- rewrite (handleSubmit_backend_error env net st Hp Hb code data e Hnet He Ht).
           now rewrite (handleSubmit_backend_error env _ st Hp Hb 200%Z data e H200 He Ht).
        -- destruct (get_member_total data "error" "prompt" e He) as [p Hp'].
           destruct (get_member_total data "error" "brand" e He) as [b Hb'].
           destruct (get_member_total data "error" "mentioned" e He) as [m Hm].
           destruct (get_member_total data "error" "position" e He) as [pos Hpos].
           destruct (get_member_total data "error" "raw" e He) as [r Hr].
           rewrite (handleSubmit_appends env net st Hp Hb code data e p b m pos r
                      Hnet He Ht Hp' Hb' Hm Hpos Hr).
           now rewrite (handleSubmit_appends env _ st Hp Hb 200%Z data e p b m pos r
                          H200 He Ht Hp' Hb' Hm Hpos Hr).
      * rewrite (handleSubmit_unreadable env net st Hp Hb code data Hnet He).
        now rewrite (handleSubmit_unreadable env _ st Hp Hb 200%Z data H200 He).
    + rewrite (handleSubmit_not_json env net st Hp Hb code Hnet).
      now rewrite (handleSubmit_not_json env _ st Hp Hb 200%Z H200).
  - intros data e -> He Ht Hraw.
    destruct (get_member_total data "error" "prompt" e He) as [p Hp'].
    destruct (get_member_total data "error" "brand" e He) as [b Hb'].
    destruct (get_member_total data "error" "mentioned" e He) as [m Hm].
    destruct (get_member_total data "error" "position" e He) as [pos Hpos].
    destruct (get_member_total data "error" "raw" e He) as [r Hr].
    assert (Hs : strict_eq_str r "API_ERROR" = false).
    { apply strict_eq_str_false. intros ->. now apply Hraw. }
    unfold after.
    rewrite (handleSubmit_appends env net st Hp Hb code data e p b m pos r
               Hnet He Ht Hp' Hb' Hm Hpos Hr).
    rewrite Hs. simpl. eexists. repeat split.
  - intros ->. unfold after.
    rewrite (handleSubmit_not_json env net st Hp Hb code Hnet). simpl. auto.
Qed.

Lemma status_code_is_ignored_witness :
  handleSubmit None (answers 500 (Some body_A)) draft_A =
    handleSubmit None (answers 200 (Some body_A)) draft_A /\
  results (after (handleSubmit None (answers 500 (Some body_A))) draft_A) = [record_A] /\
  error (after (handleSubmit None (answers 500 (Some body_A))) draft_A) = JNull /\
  results (after (handleSubmit None (answers 500 None)) draft_A) = [] /\
  error (after (handleSubmit None (answers 500 None)) draft_A) = JStr connectivity_message.
Proof.
  assert (Hp : trim (prompt draft_A) <> EmptyString) by (vm_compute; discriminate).
  assert (Hb : trim (brand draft_A) <> EmptyString) by (vm_compute; discriminate).
  destruct (status_code_is_ignored None (answers 500 (Some body_A)) draft_A 500
              (Some body_A) Hp Hb eq_refl) as (Hsame & Hok & _).
  destruct (status_code_is_ignored None (answers 500 None) draft_A 500
              None Hp Hb eq_refl) as (_ & _ & Hbad).
  split; [exact Hsame|].
  split; [reflexivity|].
  split; [reflexivity|].
  destruct (Hbad eq_refl) as (Hres & Herr & _).
  split; [exact Hres | exact Herr].
Defined.

(** ** The export *)

Lemma csv_row_well_typed (r : Result.t) (e : Entry) (st : State) :
  well_typed r e -> csv_row r st = (Normal (spec_csv_line e), st).
Proof.
  intros (Hp & Hb & Hm & Hpos & _).
  unfold csv_row, bind, or_TypeError, ret.
  rewrite Hp, Hb, Hm, Hpos. simpl.
  rewrite !replace_quotes_doubled. reflexivity.
Qed.

Lemma map_csv_row_well_typed (rs : list Result.t) (es : list Entry) (st : State) :
  Forall2 well_typed rs es ->
  map_ csv_row rs st = (Normal (map spec_csv_line es), st).
Proof.
  induction 1 as [|r e rs es Hre _ IH]; [reflexivity|].
  simpl. unfold bind at 1. rewrite (csv_row_well_typed r e st Hre).
  unfold bind at 1. rewrite IH. reflexivity.
Qed.

(** A row is printed exactly when the record is exportable, and printing
    never touches the state. *)
Lemma csv_row_exportable (r : Result.t) (st : State) :
  (exportable r = true /\ exists line, csv_row r st = (Normal line, st)) \/
  (exportable r = false /\ csv_row r st = (Throw TypeError, st)).
Proof.
  unfold exportable, csv_row, bind, or_TypeError, ret, throw.
  destruct (call_replace_quotes (Result.prompt r)); [|right; split; reflexivity].
  destruct (call_replace_quotes (Result.brand r)); [|right; split; reflexivity].
  destruct (call_toString (Result.position r)); [|right; split; reflexivity].
  left. split; [reflexivity|]. eexists; reflexivity.
Qed.

Lemma map_csv_row_exportable (rs : list Result.t) (st : State) :
  (forallb exportable rs = true /\ exists rows, map_ csv_row rs st = (Normal rows, st)) \/
  (forallb exportable rs = false /\ map_ csv_row rs st = (Throw TypeError, st)).
Proof.
  induction rs as [|r rs IH]; simpl.
  - left. split; [reflexivity|]. eexists; reflexivity.
  - unfold bind.
    destruct (csv_row_exportable r st) as [(Hr & line & Hrow) | (Hr & Hrow)];
      rewrite Hr, Hrow; simpl.
    + destruct IH as [(Hrs & rows & Hrows) | (Hrs & Hrows)]; rewrite Hrs, Hrows.
      * left. split; [reflexivity|]. eexists; reflexivity.
      * right. split; reflexivity.
    + right. split; reflexivity.
Qed.

Lemma downloadCSV_empty (st : State) :
  results st = [] ->
  downloadCSV st =
  (Return,
   mkState (prompt st) (brand st) (results st) (loading st) (error st)
     (fetched st) (alerts st ++ ["No results to download"]) (downloads st) (console st)).
Proof.
  intros H. unfold downloadCSV, bind, get_state.
  replace (List.length (results st) =? 0)%nat with true by (now rewrite H).
  reflexivity.
Qed.

Lemma downloadCSV_well_typed (st : State) (entries : list Entry) :
  results st <> [] ->
  Forall2 well_typed (results st) entries ->
  downloadCSV st =
  (Normal tt,
   mkState (prompt st) (brand st) (results st) (loading st) (error st)
     (fetched st) (alerts st)
     (downloads st ++
      [mkDownload "brand-mention-results.csv" "text/csv;charset=utf-8;"
         (spec_csv_document entries)])
     (console st)).
Proof.
  intros Hne Hty. unfold downloadCSV, bind, get_state.
  destruct (results st) as [|r rs] eqn:Hres; [congruence|].
  cbn [List.length Nat.eqb].
  rewrite (map_csv_row_well_typed (r :: rs) entries st Hty).
  unfold click_download, spec_csv_document. rewrite Hres. reflexivity.
Qed.

Lemma downloadCSV_throws_iff (st : State) :
  fst (downloadCSV st) = Throw TypeError <-> forallb exportable (results st) = false.
Proof.
  unfold downloadCSV, bind, get_state.
  destruct (results st) as [|r rs] eqn:Hres.
  - simpl. split; discriminate.
  - cbn [List.length Nat.eqb].
    destruct (map_csv_row_exportable (r :: rs) st) as [(H & rows & Hrows) | (H & Hrows)];
      rewrite H, Hrows; simpl; split; congruence.
Qed.

Lemma downloadCSV_throws (st : State) :
  forallb exportable (results st) = false -> downloadCSV st = (Throw TypeError, st).
Proof.
  intros Hbad. unfold downloadCSV, bind, get_state.
  destruct (results st) as [|r rs] eqn:Hres; [discriminate|].
  cbn [List.length Nat.eqb].
  destruct (map_csv_row_exportable (r :: rs) st) as [(H & _) | (_ & Hrows)];
    [congruence|].
  now rewrite Hrows.
Qed.

Lemma downloadCSV_keeps_results (st : State) :
  results (after downloadCSV st) = results st.
Proof.
  unfold after, downloadCSV, bind, get_state.
  destruct (results st) as [|r rs] eqn:Hres.
  - simpl. exact Hres.
  - cbn [List.length Nat.eqb].
    destruct (map_csv_row_exportable (r :: rs) st) as [(_ & rows & Hrows) | (_ & Hrows)];
      rewrite Hrows; simpl; exact Hres.
Qed.

(** C7: on an empty log the export only shows the notice and offers no
    file; on a non-empty log of records typed as the interface declares,
    with a safe integer as position, it offers one file whose text is the
    header line Prompt,Brand,Mentioned,Position followed by one line per
    record in log order, prompt and brand between double quotes with
    inner double quotes doubled, mentioned as Yes or No, position in
    decimal, zero and negative values included: the numeral of a safe
    integer reads back to it.  The brand A c double-quote m e is written
    as double-quote A c double-quote double-quote m e double-quote. *)
Theorem export_csv_document (st : State) :
  (results st = [] ->
   downloadCSV st =
   (Return,
    mkState (prompt st) (brand st) (results st) (loading st) (error st)
      (fetched st) (alerts st ++ ["No results to download"]) (downloads st)
      (console st))) /\
  (forall entries : list Entry,
     results st <> [] ->
     Forall2 well_typed (results st) entries ->
     alerts (after downloadCSV st) = alerts st /\
     downloads (after downloadCSV st) =
       (downloads st ++
        [mkDownload "brand-mention-results.csv" "text/csv;charset=utf-8;"
           (join (String LF EmptyString)
              ("Prompt,Brand,Mentioned,Position" :: map spec_csv_line entries))])%list) /\
  quoted brand_with_quote =
    String DQUOTE ("Ac" ++ String DQUOTE (String DQUOTE ("me" ++ String DQUOTE EmptyString))) /\
  spec_csv_line (mkEntry "p" brand_with_quote false 0) =
    quoted "p" ++ "," ++ quoted brand_with_quote ++ ",No,0" /\
  spec_csv_line (mkEntry "p" "b" true (-1)) = quoted "p" ++ "," ++ quoted "b" ++ ",Yes,-1" /\
  (forall n : Z,
     safe_integer n ->
     option_map Z.of_int (NilZero.int_of_string (Number_toString n)) = Some n).
Proof.
  split; [apply downloadCSV_empty|].
  split; [|repeat split; try reflexivity; intros n _; apply Number_toString_decimal].
  intros entries Hne Hty. unfold after.
  rewrite (downloadCSV_well_typed st entries Hne Hty). simpl. split; reflexivity.
Qed.

Lemma export_csv_document_witness :
  downloads (after downloadCSV initial) = [] /\
  alerts (after downloadCSV initial) = ["No results to download"] /\
  downloads (after downloadCSV logged) =
    [mkDownload "brand-mention-results.csv" "text/csv;charset=utf-8;" logged_csv] /\
  option_map Z.of_int (NilZero.int_of_string (Number_toString (-1))) = Some (-1)%Z /\
  option_map Z.of_int (NilZero.int_of_string (Number_toString MAX_SAFE_INTEGER)) =
    Some 9007199254740991%Z.
Proof.
  pose proof (proj1 (export_csv_document initial) eq_refl) as Hempty.
  assert (Hne : results logged <> []) by (vm_compute; discriminate).
  assert (Hty : Forall2 well_typed (results logged) logged_entries).
  { repeat constructor; vm_compute; discriminate. }
  destruct (proj1 (proj2 (export_csv_document logged)) logged_entries Hne Hty) as [_ Hfile].
  pose proof (proj2 (proj2 (proj2 (proj2 (proj2 (export_csv_document initial))))))
    as Hdecimal.
  split; [unfold after; rewrite Hempty; reflexivity|].
  split; [unfold after; rewrite Hempty; reflexivity|].
  split; [rewrite Hfile; reflexivity|].
  split.
  - apply (Hdecimal (-1)%Z). split; vm_compute; discriminate.
  - apply (Hdecimal MAX_SAFE_INTEGER). split; vm_compute; discriminate.
Defined.

(** ** The result log *)

Lemma handleSubmit_log (env : option string) (net : Request -> FetchOutcome) (st : State) :
  results (after (handleSubmit env net) st) = results st \/
  exists record : Result.t,
    results (after (handleSubmit env net) st) = (results st ++ [record])%list.
Proof.
  unfold after.
  destruct (string_dec (trim (prompt st)) EmptyString) as [Hp|Hp];
    [left; now rewrite (handleSubmit_invalid env net st (or_introl Hp))|].
  destruct (string_dec (trim (brand st)) EmptyString) as [Hb|Hb];
    [left; now rewrite (handleSubmit_invalid env net st (or_intror Hb))|].
  destruct (net (request_of env st)) as [|[code [data|]]] eqn:Hnet.
  - left. now rewrite (handleSubmit_rejected env net st Hp Hb Hnet).
  - destruct (get_member data "error") as [e|] eqn:He.
    + destruct (truthy e) eqn:Ht.
      * left. now rewrite (handleSubmit_backend_error env net st Hp Hb code data e Hnet He Ht).
      * destruct (get_member_total data "error" "prompt" e He) as [p Hp'].
        destruct (get_member_total data "error" "brand" e He) as [b Hb'].
        destruct (get_member_total data "error" "mentioned" e He) as [m Hm].
        destruct (get_member_total data "error" "position" e He) as [pos Hpos].
        destruct (get_member_total data "error" "raw" e He) as [r Hr].
        right.
        rewrite (handleSubmit_appends env net st Hp Hb code data e p b m pos r
                   Hnet He Ht Hp' Hb' Hm Hpos Hr).
        simpl. eexists. reflexivity.
    + left. now rewrite (handleSubmit_unreadable env net st Hp Hb code data Hnet He).
  - left. now rewrite (handleSubmit_not_json env net st Hp Hb code Hnet).
Qed.

Lemma handler_log (env : option string) (ev : Event) (st : State) :
  results (after (handler env ev) st) = results st \/
  exists record : Result.t,
    results (after (handler env ev) st) = (results st ++ [record])%list.
Proof.
  destruct ev as [value|value|net|]; simpl.
  - left. reflexivity.
  - left. reflexivity.
  - apply handleSubmit_log.
  - left. apply downloadCSV_keeps_results.
Qed.

(** C8: the result log only grows at its end.  Every event of the page,
    a submission with any outcome and the export included, leaves the log
    as it was or appends one record to it; hence after any session the
    earlier log is still there, in order and unchanged, followed by at
    most one new record per event. *)
Theorem result_log_is_append_only (env : option string) :
  (forall (ev : Event) (st : State),
     results (after (handler env ev) st) = results st \/
     exists record : Result.t,
       results (after (handler env ev) st) = (results st ++ [record])%list) /\
  (forall (evs : list Event) (st : State),
     exists added : list Result.t,
       results (session env evs st) = (results st ++ added)%list /\
       (List.length added <= List.length evs)%nat).
Proof.
  split; [exact (handler_log env)|].
  unfold session. induction evs as [|ev evs IH]; intros st; simpl.
  - exists []. split; [now rewrite app_nil_r | simpl; lia].
  - destruct (IH (after (handler env ev) st)) as (added & Hres & Hlen).
    destruct (handler_log env ev st) as [Hsame | [record Hone]].
    + exists added. rewrite Hres, Hsame. split; [reflexivity | lia].
    + exists (record :: added). rewrite Hres, Hone, <- app_assoc.
      split; [reflexivity | simpl; lia].
Qed.

(** ** Shape of the appended record *)

(** C10: the append path checks no shape.  Whenever the body has no
    truthy error and raw is not the sentinel, a record is appended whose
    prompt, brand, mentioned, position and raw are the body's members as
    read, undefined when missing; the empty object appends the record of
    six undefined members.  The export throws exactly when some record of
    the log is not exportable; a record with string prompt and brand and
    a numeric position is exportable, a record whose prompt or brand is
    not a string or whose position is undefined or null is not, so the
    export throws on the log the empty object leaves and offers no file. *)
Theorem append_path_checks_no_shape
  (env : option string) (net : Request -> FetchOutcome) (st : State)
  (code : Z) (data e : JSValue) :
  trim (prompt st) <> EmptyString ->
  trim (brand st) <> EmptyString ->
  net (request_of env st) = FetchResolved (mkResponse code (Some data)) ->
  get_member data "error" = Some e ->
  truthy e = false ->
  get_member data "raw" <> Some (JStr "API_ERROR") ->
  (exists p b m pos r : JSValue,
     get_member data "prompt" = Some p /\
     get_member data "brand" = Some b /\
     get_member data "mentioned" = Some m /\
     get_member data "position" = Some pos /\
     get_member data "raw" = Some r /\
     results (after (handleSubmit env net) st) =
       (results st ++ [Result.mk p b m pos r JUndefined])%list) /\
  (data = JObj [] ->
   results (after (handleSubmit env net) st) = (results st ++ [blank_record])%list /\
   fst (downloadCSV (after (handleSubmit env net) st)) = Throw TypeError /\
   downloads (after downloadCSV (after (handleSubmit env net) st)) =
     downloads (after (handleSubmit env net) st)) /\
  (forall s : State,
     fst (downloadCSV s) = Throw TypeError <-> forallb exportable (results s) = false) /\
  (forall r : Result.t,
     is_string (Result.prompt r) = true ->
     is_string (Result.brand r) = true ->
     is_number (Result.position r) = true ->
     exportable r = true) /\
  (forall r : Result.t,
     exportable r = true ->
     is_string (Result.prompt r) = true /\
     is_string (Result.brand r) = true /\
     Result.position r <> JUndefined /\
     Result.position r <> JNull).
Proof.
  intros Hp Hb Hnet He Ht Hraw.
  destruct (get_member_total data "error" "prompt" e He) as [p Hp'].
  destruct (get_member_total data "error" "brand" e He) as [b Hb'].
  destruct (get_member_total data "error" "mentioned" e He) as [m Hm].
  destruct (get_member_total data "error" "position" e He) as [pos Hpos].
  destruct (get_member_total data "error" "raw" e He) as [r Hr].
  assert (Hs : strict_eq_str r "API_ERROR" = false).
  { apply strict_eq_str_false. intros ->. now apply Hraw. }
  assert (Hst : after (handleSubmit env net) st =
                mkState EmptyString EmptyString
                  (results st ++ [Result.mk p b m pos r JUndefined]) false JNull
                  (fetched st ++ [request_of env st]) (alerts st) (downloads st)
                  (console st)).
  { unfold after.
    rewrite (handleSubmit_appends env net st Hp Hb code data e p b m pos r
               Hnet He Ht Hp' Hb' Hm Hpos Hr).
    now rewrite Hs. }
  split; [|split; [|split; [|split]]].
  - exists p, b, m, pos, r. rewrite Hst. simpl. auto 6.
  - intros ->. simpl in Hp', Hb', Hm, Hpos, Hr.
    injection Hp' as <-. injection Hb' as <-. injection Hm as <-.
    injection Hpos as <-. injection Hr as <-.
    assert (Hbad : forallb exportable (results (after (handleSubmit env net) st)) = false).
    { rewrite Hst. simpl. rewrite forallb_app. simpl. apply andb_false_r. }
    split; [now rewrite Hst|].
    split; [now apply downloadCSV_throws_iff|].
    unfold after at 1. now rewrite (downloadCSV_throws _ Hbad).
  - exact downloadCSV_throws_iff.
  - intros r0 H1 H2 H3. unfold exportable.
    destruct (Result.prompt r0); try discriminate.
    destruct (Result.brand r0); try discriminate.
    destruct (Result.position r0); try discriminate. reflexivity.
  - intros r0. unfold exportable.
    destruct (Result.prompt r0); try discriminate;
    destruct (Result.brand r0); try discriminate;
    destruct (Result.position r0); try discriminate; simpl; intros _;
    repeat split; discriminate.
Qed.

Lemma append_path_checks_no_shape_witness :
  results (after (handleSubmit None (answers 200 (Some (JObj [])))) draft_A) =
    [blank_record] /\
  fst (downloadCSV (after (handleSubmit None (answers 200 (Some (JObj [])))) draft_A)) =
    Throw TypeError /\
  downloads (after downloadCSV
               (after (handleSubmit None (answers 200 (Some (JObj [])))) draft_A)) = [].
Proof.
  assert (Hp : trim (prompt draft_A) <> EmptyString) by (vm_compute; discriminate).
  assert (Hb : trim (brand draft_A) <> EmptyString) by (vm_compute; discriminate).
  assert (Hraw : get_member (JObj []) "raw" <> Some (JStr "API_ERROR"))
    by (vm_compute; discriminate).
  destruct (append_path_checks_no_shape None (answers 200 (Some (JObj []))) draft_A
              200 (JObj []) JUndefined Hp Hb eq_refl eq_refl eq_refl Hraw)
    as (_ & Hblank & _).
  destruct (Hblank eq_refl) as (Hres & Hthrow & Hfile).
  split; [exact Hres|].
  split; [exact Hthrow|].
  rewrite Hfile. reflexivity.
Defined.

(** ** Every submission settles in one of four ways *)

Lemma handleSubmit_settles (env : option string) (net : Request -> FetchOutcome) (st : State) :
  exists o : Outcome, handleSubmit env net st = settle env st o /\ admissible st o.
Proof.
  destruct (string_dec (trim (prompt st)) EmptyString) as [Hp|Hp].
  { exists ValidationError. split; [|now left].
    apply (handleSubmit_invalid env net st (or_introl Hp)). }
  destruct (string_dec (trim (brand st)) EmptyString) as [Hb|Hb].
  { exists ValidationError. split; [|now right].
    apply (handleSubmit_invalid env net st (or_intror Hb)). }
  destruct (net (request_of env st)) as [|[code [data|]]] eqn:Hnet.
  - exists (TransportFailure NetworkError). split; [|now split].
    apply (handleSubmit_rejected env net st Hp Hb Hnet).
  - destruct (get_member data "error") as [e|] eqn:He.
    + destruct (truthy e) eqn:Ht.
      * exists (BackendError e). split; [|now repeat split].
        apply (handleSubmit_backend_error env net st Hp Hb code data e Hnet He Ht).
      * destruct (get_member_total data "error" "prompt" e He) as [p Hp'].
        destruct (get_member_total data "error" "brand" e He) as [b Hb'].
        destruct (get_member_total data "error" "mentioned" e He) as [m Hm].
        destruct (get_member_total data "error" "position" e He) as [pos Hpos].
        destruct (get_member_total data "error" "raw" e He) as [r Hr].
        exists (Recorded (Result.mk p b m pos r
                  (if strict_eq_str r "API_ERROR" then JStr fallback_message
                   else JUndefined))).
        split; [|now repeat split].
        rewrite (handleSubmit_appends env net st Hp Hb code data e p b m pos r
                   Hnet He Ht Hp' Hb' Hm Hpos Hr).
        simpl. now destruct (strict_eq_str r "API_ERROR").
    + exists (TransportFailure TypeError). split; [|now split].
      apply (handleSubmit_unreadable env net st Hp Hb code data Hnet He).
  - exists (TransportFailure SyntaxError). split; [|now split].
    apply (handleSubmit_not_json env net st Hp Hb code Hnet).
Qed.

Lemma blank_iff_trim_empty (s : string) : blank s = true <-> trim s = EmptyString.
Proof.
  symmetry. apply trim_empty_iff_blank.
Qed.

Lemma not_blank_iff (s : string) : blank s = false <-> trim s <> EmptyString.
Proof.
  rewrite <- blank_iff_trim_empty. destruct (blank s); split; congruence.
Qed.

Lemma app_one_neq {A : Type} (l : list A) (x : A) : (l ++ [x])%list <> l.
Proof.
  intros H. apply (f_equal (@List.length A)) in H.
  rewrite length_app in H. simpl in H. lia.
Qed.

(** X1: [handleSubmit] never throws, whatever the state and the backend:
    a rejected fetch, a body that is not JSON and a body on which the
    property read fails all end in the catch block. *)
Theorem handleSubmit_never_throws
  (env : option string) (net : Request -> FetchOutcome) (st : State) (exn : Exn) :
  fst (handleSubmit env net st) <> Throw exn.
Proof.
  destruct (handleSubmit_settles env net st) as (o & -> & _).
  destruct o; simpl; discriminate.
Qed.

(** X2: a submission that fails the validation leaves the loading flag
    as it was; every submission that is sent ends with the flag off,
    whatever the outcome. *)
Theorem loading_is_off_after_a_sent_submission
  (env : option string) (net : Request -> FetchOutcome) (st : State) :
  loading (after (handleSubmit env net) st) =
  if blank (prompt st) || blank (brand st) then loading st else false.
Proof.
  unfold after.
  destruct (handleSubmit_settles env net st) as (o & -> & Hadm).
  destruct o; simpl in *.
  - destruct Hadm as [H|H]; apply blank_iff_trim_empty in H; rewrite H;
      rewrite ?orb_true_r; reflexivity.
  - destruct Hadm as [Hp Hb]. apply not_blank_iff in Hp, Hb. now rewrite Hp, Hb.
  - destruct Hadm as (Hp & Hb & _). apply not_blank_iff in Hp, Hb. now rewrite Hp, Hb.
  - destruct Hadm as (Hp & Hb & _). apply not_blank_iff in Hp, Hb. now rewrite Hp, Hb.
Qed.

(** X3: a submission either appends one record and empties the draft, or
    keeps both the log and the draft and leaves a message in the banner;
    there is no third way. *)
Theorem draft_is_cleared_exactly_when_a_record_is_appended
  (env : option string) (net : Request -> FetchOutcome) (st : State) :
  (prompt (after (handleSubmit env net) st) = EmptyString /\
   brand (after (handleSubmit env net) st) = EmptyString /\
   exists record : Result.t,
     results (after (handleSubmit env net) st) = (results st ++ [record])%list) \/
  (prompt (after (handleSubmit env net) st) = prompt st /\
   brand (after (handleSubmit env net) st) = brand st /\
   results (after (handleSubmit env net) st) = results st /\
   truthy (error (after (handleSubmit env net) st)) = true).
Proof.
  unfold after.
  destruct (handleSubmit_settles env net st) as (o & -> & Hadm).
  destruct o; simpl in *.
  - right. auto.
  - right. auto.
  - right. destruct Hadm as (_ & _ & Ht). auto.
  - left. eauto.
Qed.

(** X4: the banner a submission starts from plays no part in how it
    ends: an earlier message never survives a submission. *)
Theorem earlier_banner_is_forgotten
  (env : option string) (net : Request -> FetchOutcome) (st : State) (old : JSValue) :
  handleSubmit env net (after (setError old) st) = handleSubmit env net st.
Proof.
  unfold after, setError. simpl. run_handler. simpl.
  match goal with
  | |- (if ?c then _ else _) _ = _ => destruct c
  end; reflexivity.
Qed.

(** X10: after a submission the banner is clear exactly when the
    submission appended a record without an error; validation failures,
    transport failures, backend errors and sentinel answers all leave a
    message. *)
Theorem banner_is_clear_exactly_after_a_clean_success
  (env : option string) (net : Request -> FetchOutcome) (st : State) :
  error (after (handleSubmit env net) st) = JNull <->
  exists record : Result.t,
    results (after (handleSubmit env net) st) = (results st ++ [record])%list /\
    Result.error record = JUndefined.
Proof.
  unfold after.
  destruct (handleSubmit_settles env net st) as (o & -> & Hadm).
  destruct o; simpl in *.
  - split; [discriminate|]. intros (r & H & _). symmetry in H. now apply app_one_neq in H.
  - split; [discriminate|]. intros (r & H & _). symmetry in H. now apply app_one_neq in H.
  - split.
    + intros ->. destruct Hadm as (_ & _ & Ht). discriminate Ht.
    + intros (r & H & _). symmetry in H. now apply app_one_neq in H.
  - destruct Hadm as (_ & _ & Hd). unfold error_derived in Hd. split.
    + intros H. exists record. split; [reflexivity|].
      rewrite Hd in *. destruct (strict_eq_str (Result.raw record) "API_ERROR");
        [discriminate H | reflexivity].
    + intros (r & H & Hr). apply app_inv_head in H. injection H as <-.
      now rewrite Hr.
Qed.

(** X13: a submission is refused before any request exactly when the
    prompt or the brand is empty or made of white space only. *)
Theorem submission_is_refused_exactly_on_blank_fields
  (env : option string) (net : Request -> FetchOutcome) (st : State) :
  fetched (after (handleSubmit env net) st) = fetched st <->
  blank (prompt st) || blank (brand st) = true.
Proof.
  unfold after.
  destruct (handleSubmit_settles env net st) as (o & -> & Hadm).
  destruct o; simpl in *.
  - split; [intros _|reflexivity].
    destruct Hadm as [H|H]; apply blank_iff_trim_empty in H; rewrite H;
      rewrite ?orb_true_r; reflexivity.
  - destruct Hadm as [Hp Hb]. apply not_blank_iff in Hp, Hb. rewrite Hp, Hb. simpl.
    split; [intros H; now apply app_one_neq in H | discriminate].
  - destruct Hadm as (Hp & Hb & _). apply not_blank_iff in Hp, Hb. rewrite Hp, Hb. simpl.
    split; [intros H; now apply app_one_neq in H | discriminate].
  - destruct Hadm as (Hp & Hb & _). apply not_blank_iff in Hp, Hb. rewrite Hp, Hb. simpl.
    split; [intros H; now apply app_one_neq in H | discriminate].
Qed.

(** ** What a session sends and records *)

(** The export changes nothing but the alerts and the files offered. *)
Lemma downloadCSV_frame (st : State) :
  exists (shown : list string) (offered : list Download),
    after downloadCSV st =
    mkState (prompt st) (brand st) (results st) (loading st) (error st)
      (fetched st) (alerts st ++ shown) (downloads st ++ offered) (console st) /\
    (results st <> [] -> shown = []).
Proof.
  unfold after, downloadCSV, bind, get_state.
  destruct (results st) as [|r rs] eqn:Hres.
  - exists ["No results to download"], []. simpl. rewrite Hres, app_nil_r.
    split; [reflexivity | congruence].
  - cbn [List.length Nat.eqb].
    destruct (map_csv_row_exportable (r :: rs) st) as [(_ & rows & Hrows) | (_ & Hrows)];
      rewrite Hrows.
    + eexists [], [_]. unfold click_download. simpl. rewrite Hres, app_nil_r.
      split; reflexivity.
    + exists [], []. simpl. rewrite !app_nil_r. split; [|reflexivity].
      destruct st; simpl in *. now subst.
Qed.

Lemma handler_summary (env : option string) (ev : Event) (st : State) :
  exists (added : list Result.t) (sent : list Request),
    results (after (handler env ev) st) = (results st ++ added)%list /\
    fetched (after (handler env ev) st) = (fetched st ++ sent)%list /\
    (List.length added <= List.length sent)%nat /\
    Forall (fun q => filled_request q = true) sent /\
    Forall error_derived added.
Proof.
  destruct ev as [value|value|net|].
  - exists [], []. simpl. rewrite !app_nil_r. auto.
  - exists [], []. simpl. rewrite !app_nil_r. auto.
  - assert (Hfilled : trim (prompt st) <> EmptyString ->
                      trim (brand st) <> EmptyString ->
                      filled_request (request_of env st) = true).
    { intros Hp Hb. apply not_blank_iff in Hp, Hb.
      unfold filled_request, request_of. simpl. now rewrite Hp, Hb. }
    simpl. unfold after.
    destruct (handleSubmit_settles env net st) as (o & -> & Hadm).
    destruct o; simpl in *.
    + exists [], []. rewrite !app_nil_r. auto.
    + destruct Hadm as [Hp Hb].
      exists [], [request_of env st]. rewrite app_nil_r. simpl.
      repeat split; try lia; repeat constructor; auto.
    + destruct Hadm as (Hp & Hb & _).
      exists [], [request_of env st]. rewrite app_nil_r. simpl.
      repeat split; try lia; repeat constructor; auto.
    + destruct Hadm as (Hp & Hb & Hd).
      exists [record], [request_of env st]. simpl.
      repeat split; try lia; repeat constructor; auto.
  - destruct (downloadCSV_frame st) as (shown & offered & Heq & _).
    exists [], []. simpl. rewrite Heq. simpl. rewrite !app_nil_r. auto.
Qed.

Lemma session_summary (env : option string) (evs : list Event) (st : State) :
  exists (added : list Result.t) (sent : list Request),
    results (session env evs st) = (results st ++ added)%list /\
    fetched (session env evs st) = (fetched st ++ sent)%list /\
    (List.length added <= List.length sent)%nat /\
    Forall (fun q => filled_request q = true) sent /\
    Forall error_derived added.
Proof.
  unfold session. revert st. induction evs as [|ev evs IH]; intros st; simpl.
  - exists [], []. rewrite !app_nil_r. auto.
  - destruct (handler_summary env ev st) as (a1 & s1 & Hr1 & Hf1 & Hl1 & Hq1 & He1).
    destruct (IH (after (handler env ev) st)) as (a2 & s2 & Hr2 & Hf2 & Hl2 & Hq2 & He2).
    exists (a1 ++ a2)%list, (s1 ++ s2)%list.
    rewrite Hr2, Hf2, Hr1, Hf1, <- !app_assoc, !length_app.
    repeat split; try reflexivity; try lia; now apply Forall_app.
Qed.

(** X5: the error of a logged record is read off its raw member alone:
    the fallback message under the sentinel, undefined otherwise.  A log
    that has this property keeps it through any session, so no message
    sent by the backend is ever stored in a record. *)
Theorem logged_errors_are_derived_from_raw
  (env : option string) (evs : list Event) (st : State) :
  Forall error_derived (results st) ->
  Forall error_derived (results (session env evs st)).
Proof.
  intros H.
  destruct (session_summary env evs st) as (added & sent & -> & _ & _ & _ & Hadded).
  now apply Forall_app.
Qed.

Lemma logged_errors_are_derived_from_raw_witness :
  Forall error_derived
    (results (session None
       [ChangePrompt "Best CRM?"; ChangeBrand "Acme";
        SubmitForm (answers 200 (Some body_C)); ClickDownload;
        ChangePrompt "x"; ChangeBrand "y";
        SubmitForm (answers 200 (Some body_B))]
       initial)).
Proof.
  apply (logged_errors_are_derived_from_raw None
           [ChangePrompt "Best CRM?"; ChangeBrand "Acme";
            SubmitForm (answers 200 (Some body_C)); ClickDownload;
            ChangePrompt "x"; ChangeBrand "y";
            SubmitForm (answers 200 (Some body_B))]
           initial).
  simpl. constructor.
Defined.

(** X11: every request a session issues carries a prompt and a brand
    that hold more than white space: the backend is never asked about a
    blank field. *)
Theorem requests_never_carry_blank_fields
  (env : option string) (evs : list Event) (st : State) :
  exists sent : list Request,
    fetched (session env evs st) = (fetched st ++ sent)%list /\
    Forall (fun q => filled_request q = true) sent.
Proof.
  destruct (session_summary env evs st) as (added & sent & _ & Hf & _ & Hq & _).
  exists sent. auto.
Qed.

(** X12: over any session the log grows by at most one record per
    request issued: no record enters the log without a backend call. *)
Theorem no_record_without_a_request
  (env : option string) (evs : list Event) (st : State) :
  (List.length (results (session env evs st)) + List.length (fetched st) <=
   List.length (results st) + List.length (fetched (session env evs st)))%nat.
Proof.
  destruct (session_summary env evs st) as (added & sent & -> & -> & Hl & _).
  rewrite !length_app. lia.
Qed.

(** ** The page as the user meets it *)

Lemma handleSubmit_keeps_alerts (env : option string) (net : Request -> FetchOutcome)
  (st : State) :
  alerts (after (handleSubmit env net) st) = alerts st /\
  downloads (after (handleSubmit env net) st) = downloads st.
Proof.
  unfold after.
  destruct (handleSubmit_settles env net st) as (o & -> & _).
  destruct o; split; reflexivity.
Qed.

Lemma ui_step_keeps_alerts (env : option string) (st : State) (ev : Event) :
  alerts (ui_step env st ev) = alerts st.
Proof.
  unfold ui_step. destruct (enabled st ev) eqn:Hen; [|reflexivity].
  destruct ev as [value|value|net|]; simpl.
  - reflexivity.
  - reflexivity.
  - apply handleSubmit_keeps_alerts.
  - destruct (downloadCSV_frame st) as (shown & offered & -> & Hshown). simpl.
    rewrite Hshown; [apply app_nil_r|].
    unfold enabled, download_button_rendered in Hen.
    destruct (results st); [discriminate Hen | discriminate].
Qed.

(** X9: the download button is rendered only over a non-empty log, so
    through the page the export never meets an empty log: no session of
    events from rendered, enabled controls ever shows the alert. *)
Theorem page_never_shows_the_empty_log_alert
  (env : option string) (evs : list Event) (st : State) :
  alerts (ui_session env evs st) = alerts st.
Proof.
  unfold ui_session. revert st.
  induction evs as [|ev evs IH]; intros st; simpl; [reflexivity|].
  rewrite IH. apply ui_step_keeps_alerts.
Qed.

(** ** More on the export *)

(** The rows depend on the log alone. *)
Lemma map_csv_row_pure (rs : list Result.t) (st st' : State) :
  fst (map_ csv_row rs st) = fst (map_ csv_row rs st').
Proof.
  destruct (map_csv_row_exportable rs st) as [(H & rows & Hrows) | (H & Hrows)];
    destruct (map_csv_row_exportable rs st') as [(H' & rows' & Hrows') | (H' & Hrows')];
    try congruence.
  - rewrite Hrows, Hrows'. simpl. f_equal.
    clear H H'. revert rows rows' Hrows Hrows'.
    induction rs as [|r rs IH]; intros rows rows'; simpl.
    + unfold ret. congruence.
    + unfold bind.
      destruct (csv_row_exportable r st) as [(_ & line & Hl) | (_ & Hl)];
        destruct (csv_row_exportable r st') as [(_ & line' & Hl') | (_ & Hl')];
        rewrite Hl, Hl'; try discriminate.
      assert (line = line').
      { revert Hl Hl'. unfold csv_row, bind, or_TypeError, ret, throw.
        destruct (call_replace_quotes (Result.prompt r)); [|discriminate].
        destruct (call_replace_quotes (Result.brand r)); [|discriminate].
        destruct (call_toString (Result.position r)); [|discriminate].
        congruence. }
      subst line'.
      destruct (map_ csv_row rs st) as [[ys| |e] s1] eqn:H1;
        destruct (map_ csv_row rs st') as [[ys'| |e'] s1'] eqn:H2;
        unfold ret; try discriminate.
      intros [= <-] [= <-].
      destruct (map_csv_row_exportable rs st) as [(_ & x & Hx) | (_ & Hx)];
        [|congruence].
      destruct (map_csv_row_exportable rs st') as [(_ & x' & Hx') | (_ & Hx')];
        [|congruence].
      rewrite H1 in Hx. rewrite H2 in Hx'.
      injection Hx as -> ->. injection Hx' as -> ->.
      f_equal. apply (IH x x'); reflexivity.
  - now rewrite Hrows, Hrows'.
Qed.

Lemma downloadCSV_by_log (st : State) :
  downloadCSV st =
  match results st with
  | [] =>
      (Return,
       mkState (prompt st) (brand st) (results st) (loading st) (error st)
         (fetched st) (alerts st ++ ["No results to download"]) (downloads st)
         (console st))
  | _ :: _ =>
      match rows_of_log (results st) with
      | Normal rows =>
          (Normal tt,
           mkState (prompt st) (brand st) (results st) (loading st) (error st)
             (fetched st) (alerts st)
             (downloads st ++
              [mkDownload "brand-mention-results.csv" "text/csv;charset=utf-8;"
                 (join (String LF EmptyString)
                    ("Prompt,Brand,Mentioned,Position" :: rows))])
             (console st))
      | Return => (Return, st)
      | Throw e => (Throw e, st)
      end
  end.
Proof.
  destruct (results st) as [|r rs] eqn:Hres.
  - rewrite <- Hres. now apply downloadCSV_empty.
  - unfold downloadCSV, bind, get_state. rewrite Hres.
    cbn [List.length Nat.eqb]. unfold rows_of_log.
    rewrite <- (map_csv_row_pure (r :: rs) st initial).
    destruct (map_csv_row_exportable (r :: rs) st) as [(_ & rows & Hrows) | (_ & Hrows)];
      rewrite Hrows; unfold click_download; simpl; rewrite ?Hres; reflexivity.
Qed.

(** X6: the export touches nothing of the component state nor of the
    requests and the console, and it can be repeated: a second export
    over the unchanged log ends as the first did and offers the very same
    file again. *)
Theorem export_is_repeatable (st : State) :
  prompt (after downloadCSV st) = prompt st /\
  brand (after downloadCSV st) = brand st /\
  results (after downloadCSV st) = results st /\
  loading (after downloadCSV st) = loading st /\
  error (after downloadCSV st) = error st /\
  fetched (after downloadCSV st) = fetched st /\
  console (after downloadCSV st) = console st /\
  fst (downloadCSV (after downloadCSV st)) = fst (downloadCSV st) /\
  (forall file : Download,
     downloads (after downloadCSV st) = (downloads st ++ [file])%list ->
     downloads (after downloadCSV (after downloadCSV st)) =
       (downloads st ++ [file; file])%list).
Proof.
  unfold after. rewrite (downloadCSV_by_log st).
  destruct (results st) as [|r rs] eqn:Hres.
  - cbn [snd fst]. rewrite downloadCSV_by_log. simpl.
    repeat split; try reflexivity.
    intros file H. symmetry in H. now apply app_one_neq in H.
  - destruct (rows_of_log (r :: rs)) as [rows| |e] eqn:Hrows; cbn [snd fst].
    + rewrite downloadCSV_by_log. simpl. rewrite Hrows. simpl.
      repeat split; try reflexivity.
      intros file H. apply app_inv_head in H. injection H as <-.
      now rewrite <- app_assoc.
    + rewrite downloadCSV_by_log, Hres, Hrows. simpl.
      repeat split; try reflexivity.
      intros file H. symmetry in H. now apply app_one_neq in H.
    + rewrite downloadCSV_by_log, Hres, Hrows. simpl.
      repeat split; try reflexivity.
      intros file H. symmetry in H. now apply app_one_neq in H.
Qed.

(** X7: the doubling of quotes loses nothing: undoing it gives the text
    back, so two different texts never have the same escaped form. *)
Theorem escaping_is_reversible (s : string) :
  undoubled (replace_quotes s) = s /\
  (forall s' : string, replace_quotes s = replace_quotes s' -> s = s').
Proof.
  split; [apply undoubled_replace_quotes|].
  intros s' H. apply (f_equal undoubled) in H.
  now rewrite !undoubled_replace_quotes in H.
Qed.

(** ** A backend that keeps to the contract *)

Lemma handleSubmit_keeps_exportable
  (env : option string) (net : Request -> FetchOutcome) (st : State) :
  honours_contract net ->
  forallb exportable (results st) = true ->
  forallb exportable (results (after (handleSubmit env net) st)) = true.
Proof.
  intros Hnet Hlog. unfold after.
  destruct (string_dec (trim (prompt st)) EmptyString) as [Hp|Hp];
    [now rewrite (handleSubmit_invalid env net st (or_introl Hp))|].
  destruct (string_dec (trim (brand st)) EmptyString) as [Hb|Hb];
    [now rewrite (handleSubmit_invalid env net st (or_intror Hb))|].
  destruct (net (request_of env st)) as [|[code [data|]]] eqn:Hreq.
  - now rewrite (handleSubmit_rejected env net st Hp Hb Hreq).
  - destruct (get_member data "error") as [e|] eqn:He.
    + destruct (truthy e) eqn:Ht.
      * now rewrite (handleSubmit_backend_error env net st Hp Hb code data e Hreq He Ht).
      * destruct (Hnet _ _ _ _ Hreq He Ht) as (p & b & n & Hp' & Hb' & Hpos).
        destruct (get_member_total data "error" "mentioned" e He) as [m Hm].
        destruct (get_member_total data "error" "raw" e He) as [r Hr].
        rewrite (handleSubmit_appends env net st Hp Hb code data e _ _ m _ r
                   Hreq He Ht Hp' Hb' Hm Hpos Hr).
        simpl. rewrite forallb_app, Hlog. reflexivity.
    + now rewrite (handleSubmit_unreadable env net st Hp Hb code data Hreq He).
  - now rewrite (handleSubmit_not_json env net st Hp Hb code Hreq).
Qed.

(** X14: if the log can be exported and every backend answer of a
    session keeps to the declared shape whenever it reports no error,
    the log can still be exported after the session: the export does not
    throw. *)
Theorem export_never_throws_under_the_contract
  (env : option string) (evs : list Event) (st : State) :
  Forall contract_kept evs ->
  forallb exportable (results st) = true ->
  forallb exportable (results (session env evs st)) = true /\
  fst (downloadCSV (session env evs st)) <> Throw TypeError.
Proof.
  intros Hevs Hlog.
  assert (H : forallb exportable (results (session env evs st)) = true).
  { unfold session. revert st Hlog.
    induction Hevs as [|ev evs Hev _ IH]; intros st Hlog; simpl; [exact Hlog|].
    apply IH. destruct ev as [value|value|net|]; simpl in *.
    - exact Hlog.
    - exact Hlog.
    - now apply handleSubmit_keeps_exportable.
    - now rewrite downloadCSV_keeps_results. }
  split; [exact H|].
  intros Hthrow. apply downloadCSV_throws_iff in Hthrow. congruence.
Qed.

Lemma export_never_throws_under_the_contract_witness :
  forallb exportable
    (results (session None
       [ChangePrompt "Best CRM?"; ChangeBrand "Acme";
        SubmitForm (answers 200 (Some body_A)); ClickDownload]
       initial)) = true /\
  fst (downloadCSV (session None
       [ChangePrompt "Best CRM?"; ChangeBrand "Acme";
        SubmitForm (answers 200 (Some body_A)); ClickDownload]
       initial)) <> Throw TypeError.
Proof.
  apply (export_never_throws_under_the_contract None
           [ChangePrompt "Best CRM?"; ChangeBrand "Acme";
            SubmitForm (answers 200 (Some body_A)); ClickDownload]
           initial).
  - repeat constructor.
    intros req code data e Hreq He Ht.
    unfold answers in Hreq. injection Hreq as _ <-.
    exists "Best CRM?", "Acme", 3%Z. repeat split; reflexivity.
  - reflexivity.
Defined.

(** ** The export reads back *)

Lemma string_app_assoc (a b c : string) : (a ++ b) ++ c = a ++ (b ++ c).
Proof.
  induction a as [|x a IH]; simpl; [reflexivity | now rewrite IH].
Qed.

Lemma string_app_nil_r (a : string) : a ++ EmptyString = a.
Proof.
  induction a as [|x a IH]; simpl; [reflexivity | now rewrite IH].
Qed.

(** Inside quotes the reader undoes the doubling. *)
Lemma read_quoted_body (s acc rest : string) (row : list string) (rows : list (list string)) :
  read_csv (replace_quotes s ++ rest) Quoted acc row rows =
  read_csv rest Quoted (acc ++ s) row rows.
Proof.
  revert acc. induction s as [|c r IH]; intros acc.
  - simpl. now rewrite string_app_nil_r.
  - cbn [replace_quotes]. destruct (Ascii.eqb c DQUOTE) eqn:Hc.
    + apply Ascii.eqb_eq in Hc. subst c.
      cbn [append read_csv]. rewrite Ascii.eqb_refl, IH.
      now rewrite string_app_assoc.
    + cbn [append read_csv]. rewrite Hc, IH.
      now rewrite string_app_assoc.
Qed.

Lemma read_quoted_field (s rest : string) (row : list string) (rows : list (list string)) :
  read_csv (quoted s ++ rest) Bare EmptyString row rows =
  read_csv rest Closing s row rows.
Proof.
  unfold quoted. rewrite <- replace_quotes_doubled.
  cbn [append read_csv]. rewrite Ascii.eqb_refl.
  rewrite string_app_assoc, read_quoted_body.
  cbn [append read_csv]. now rewrite Ascii.eqb_refl.
Qed.

Lemma read_plain_field (s acc rest : string) (row : list string) (rows : list (list string)) :
  plain s = true ->
  read_csv (s ++ rest) Bare acc row rows = read_csv rest Bare (acc ++ s) row rows.
Proof.
  revert acc. induction s as [|c r IH]; intros acc Hs.
  - simpl. now rewrite string_app_nil_r.
  - cbn [plain] in Hs.
    apply andb_true_iff in Hs as [Hs Hr]. apply andb_true_iff in Hs as [Hs Hlf].
    apply andb_true_iff in Hs as [Hq Hc].
    apply negb_true_iff in Hq, Hc, Hlf.
    cbn [append read_csv]. rewrite Hq, Hc, Hlf, (IH _ Hr).
    now rewrite string_app_assoc.
Qed.

Lemma plain_string_of_uint (d : Decimal.uint) : plain (NilEmpty.string_of_uint d) = true.
Proof.
  induction d; simpl; auto.
Qed.

Lemma plain_Number_toString (n : Z) : plain (Number_toString n) = true.
Proof.
  unfold Number_toString, NilZero.string_of_int, NilZero.string_of_uint.
  destruct (Z.to_int n) as [d|d]; destruct d; simpl;
    try reflexivity; apply plain_string_of_uint.
Qed.

Lemma spec_csv_line_reads (e : Entry) : row_reads (spec_csv_line e) (cells e).
Proof.
  exists [entry_prompt e; entry_brand e; if entry_mentioned e then "Yes" else "No"],
         (Number_toString (entry_position e)).
  split; [reflexivity|].
  intros rest rows. unfold spec_csv_line.
  rewrite !string_app_assoc, read_quoted_field.
  cbn [append read_csv]. cbn [Ascii.eqb Bool.eqb COMMA DQUOTE LF].
  rewrite read_quoted_field.
  cbn [append read_csv]. cbn [Ascii.eqb Bool.eqb COMMA DQUOTE LF].
  rewrite read_plain_field by (destruct (entry_mentioned e); reflexivity).
  cbn [append read_csv]. cbn [Ascii.eqb Bool.eqb COMMA DQUOTE LF].
  rewrite read_plain_field by apply plain_Number_toString.
  reflexivity.
Qed.

Lemma header_reads :
  row_reads "Prompt,Brand,Mentioned,Position" ["Prompt"; "Brand"; "Mentioned"; "Position"].
Proof.
  exists ["Prompt"; "Brand"; "Mentioned"], "Position".
  split; [reflexivity|]. intros rest rows. reflexivity.
Qed.

Lemma read_lines (lines : list string) (css rows : list (list string)) :
  Forall2 row_reads lines css ->
  lines <> [] ->
  read_csv (join (String LF EmptyString) lines) Bare EmptyString [] rows =
  Some (rows ++ css)%list.
Proof.
  intros H. revert rows.
  induction H as [|line cs lines css (init & last & -> & Hline) Hrest IH];
    intros rows Hne; [congruence|].
  destruct lines as [|line' lines].
  - inversion Hrest; subst. cbn [join].
    rewrite <- (string_app_nil_r line), Hline. reflexivity.
  - change (join (String LF EmptyString) (line :: line' :: lines))
      with (line ++ String LF EmptyString ++ join (String LF EmptyString) (line' :: lines)).
    rewrite Hline. cbn [append read_csv]. cbn [Ascii.eqb Bool.eqb COMMA DQUOTE LF].
    rewrite IH by discriminate. now rewrite <- app_assoc.
Qed.

(** X8: the file offered for a non-empty log of typed records, their
    positions safe integers, reads back,
    through a reader of comma-separated text that honours quoted fields,
    as the four header cells followed by the four cells of each record in
    log order, whatever commas, double quotes or line feeds the prompts
    and brands hold. *)
Theorem export_reads_back (st : State) (entries : list Entry) :
  results st <> [] ->
  Forall2 well_typed (results st) entries ->
  exists text : string,
    downloads (after downloadCSV st) =
      (downloads st ++
       [mkDownload "brand-mention-results.csv" "text/csv;charset=utf-8;" text])%list /\
    parse_csv text =
      Some (["Prompt"; "Brand"; "Mentioned"; "Position"] :: map cells entries).
Proof.
  intros Hne Hty. exists (spec_csv_document entries). split.
  - unfold after. now rewrite (downloadCSV_well_typed st entries Hne Hty).
  - unfold parse_csv, spec_csv_document.
    rewrite (read_lines _ (["Prompt"; "Brand"; "Mentioned"; "Position"] :: map cells entries)).
    + reflexivity.
    + constructor; [apply header_reads|].
      clear. induction entries as [|e es IH]; simpl; constructor;
        [apply spec_csv_line_reads | exact IH].
    + discriminate.
Qed.

Lemma export_reads_back_witness :
  exists text : string,
    downloads (after downloadCSV awkward_state) =
      [mkDownload "brand-mention-results.csv" "text/csv;charset=utf-8;" text] /\
    parse_csv text =
      Some [["Prompt"; "Brand"; "Mentioned"; "Position"];
            [awkward_prompt; brand_with_quote; "Yes"; "-2"];
            ["p"; "b"; "No"; "0"]].
Proof.
  apply (export_reads_back awkward_state awkward_entries).
  - vm_compute; discriminate.
  - repeat constructor; vm_compute; discriminate.
Defined.

(** ** Submitting again *)

(** X15: once a submission has appended a record, submitting again
    without typing sends nothing and appends nothing: the emptied draft
    fails the validation, so a repeated click cannot duplicate a record. *)
Theorem resubmitting_after_a_record_sends_nothing
  (env : option string) (net net' : Request -> FetchOutcome) (st : State)
  (record : Result.t) :
  results (after (handleSubmit env net) st) = (results st ++ [record])%list ->
  fetched (after (handleSubmit env net') (after (handleSubmit env net) st)) =
    fetched (after (handleSubmit env net) st) /\
  results (after (handleSubmit env net') (after (handleSubmit env net) st)) =
    (results st ++ [record])%list /\
  error (after (handleSubmit env net') (after (handleSubmit env net) st)) =
    JStr "Please fill in both prompt and brand name".
Proof.
  intros Hrec.
  assert (Hdraft : prompt (after (handleSubmit env net) st) = EmptyString).
  { revert Hrec. unfold after.
    destruct (handleSubmit_settles env net st) as (o & -> & _).
    destruct o; simpl; intros H; try reflexivity;
      symmetry in H; now apply app_one_neq in H. }
  assert (Hinv : trim (prompt (after (handleSubmit env net) st)) = EmptyString \/
                 trim (brand (after (handleSubmit env net) st)) = EmptyString)
    by (left; now rewrite Hdraft).
  set (st1 := after (handleSubmit env net) st) in *.
  unfold after. rewrite (handleSubmit_invalid env net' st1 Hinv). simpl. auto.
Qed.

Lemma resubmitting_after_a_record_sends_nothing_witness :
  fetched (after (handleSubmit None unreachable)
             (after (handleSubmit None (answers 200 (Some body_A))) draft_A)) =
    fetched (after (handleSubmit None (answers 200 (Some body_A))) draft_A) /\
  results (after (handleSubmit None unreachable)
             (after (handleSubmit None (answers 200 (Some body_A))) draft_A)) =
    (results draft_A ++ [record_A])%list /\
  error (after (handleSubmit None unreachable)
           (after (handleSubmit None (answers 200 (Some body_A))) draft_A)) =
    JStr "Please fill in both prompt and brand name".
Proof.
  apply (resubmitting_after_a_record_sends_nothing None (answers 200 (Some body_A))
           unreachable draft_A record_A).
  reflexivity.
Defined.

(** X16: when a sent submission records nothing (a transport failure or
    a backend error), the draft is still there, and submitting again
    without typing sends the very same request a second time. *)
Theorem retrying_sends_the_same_request
  (env : option string) (net net' : Request -> FetchOutcome) (st : State) :
  trim (prompt st) <> EmptyString ->
  trim (brand st) <> EmptyString ->
  results (after (handleSubmit env net) st) = results st ->
  fetched (after (handleSubmit env net') (after (handleSubmit env net) st)) =
    (fetched st ++ [request_of env st; request_of env st])%list.
Proof.
  intros Hp Hb Hsame.
  assert (H1 : prompt (after (handleSubmit env net) st) = prompt st /\
               brand (after (handleSubmit env net) st) = brand st /\
               fetched (after (handleSubmit env net) st) =
                 (fetched st ++ [request_of env st])%list).
  { revert Hsame. unfold after.
    destruct (handleSubmit_settles env net st) as (o & -> & Hadm).
    destruct o; simpl in *; intros H; auto.
    - destruct Hadm; contradiction.
    - now apply app_one_neq in H. }
  destruct H1 as (Hp1 & Hb1 & Hf1).
  set (st1 := after (handleSubmit env net) st) in *.
  assert (Hreq : request_of env st1 = request_of env st)
    by (unfold request_of; now rewrite Hp1, Hb1).
  unfold after at 1.
  destruct (handleSubmit_settles env net' st1) as (o & -> & Hadm).
  destruct o; simpl in *.
  - rewrite Hp1, Hb1 in Hadm. destruct Hadm; contradiction.
  - rewrite Hf1, Hreq, <- app_assoc. reflexivity.
  - rewrite Hf1, Hreq, <- app_assoc. reflexivity.
  - rewrite Hf1, Hreq, <- app_assoc. reflexivity.
Qed.

Lemma retrying_sends_the_same_request_witness :
  fetched (after (handleSubmit None (answers 200 (Some body_A)))
             (after (handleSubmit None unreachable) draft_A)) =
    [request_of None draft_A; request_of None draft_A].
Proof.
  apply (retrying_sends_the_same_request None unreachable (answers 200 (Some body_A))
           draft_A).
  - vm_compute; discriminate.
  - vm_compute; discriminate.
  - reflexivity.
Defined.

Lemma export_is_repeatable_witness :
  downloads (after downloadCSV (after downloadCSV logged)) =
    [mkDownload "brand-mention-results.csv" "text/csv;charset=utf-8;" logged_csv;
     mkDownload "brand-mention-results.csv" "text/csv;charset=utf-8;" logged_csv] /\
  fst (downloadCSV (after downloadCSV logged)) = fst (downloadCSV logged).
Proof.
  destruct (export_is_repeatable logged) as (_ & _ & _ & _ & _ & _ & _ & Hsame & Hfile).
  split; [|exact Hsame].
  apply (Hfile (mkDownload "brand-mention-results.csv" "text/csv;charset=utf-8;" logged_csv)).
  reflexivity.
Defined.
